(** * PretrainedFastText: a shallow embedding of dirty_cat/pretrained_fastText.py

    The class wraps a pretrained fastText model behind fit/transform.  The
    embedding below follows the Python source method by method:
    [__init__], [load_model], [reduce_model], [fit] and [transform].
    [save_model] follows, on a process that has a working directory.
    ([download_model] hands over to the network and is left out.)

    Conventions.
    - A Python [int] is a [Z]; a [str] is a [string] (its UTF-8 bytes, so the
      byte-wise order of [String.compare] is Python's code point order).
    - A method is a computation in the monad [M]: it reads and writes the
      instance attributes and the outside world, and either returns a value
      or raises.  As in Python, what was written before a raise stays written.
    - numpy, os.path and the fasttext package are not part of the repository.
      numpy and os.path are modelled from their documented behaviour; the
      fasttext package is an interface ([FastText]) with the few laws the
      wrapper relies on.
    - The input of [transform] is the array [np.asarray(X)] yields (an array
      is left as it is by [np.asarray]); a sequence is represented by the 1-D
      array numpy builds from it. *)

From Stdlib Require Import ZArith Ascii String DecimalString.
From stdpp Require Import base option list strings gmap.

Local Open Scope Z_scope.

(** ** Exceptions and results *)

Inductive exn : Type :=
  | AssertionError (msg : string)
  | FileNotFoundError (msg : string)
  | IndexError
  | TypeError
  | ValueError
  | AttributeError.

Inductive result (A : Type) : Type :=
  | Ok (a : A)
  | Raise (e : exn).
Arguments Ok {A} a.
Arguments Raise {A} e.

Definition rbind {A B} (r : result A) (k : A → result B) : result B :=
  match r with
  | Ok a => k a
  | Raise e => Raise e
  end.

(** ** Python values held by an array, and the few builtins the class uses *)

Inductive pyval : Type :=
  | PyStr (s : string)
  | PyInt (z : Z)
  | PyNone.

Global Instance pyval_eq_dec : EqDecision pyval.
Proof. solve_decision. Defined.

(** [isinstance(v, str)] *)
Definition isinstance_str (v : pyval) : bool :=
  match v with
  | PyStr _ => true
  | _ => false
  end.

Definition is_str (v : pyval) : Prop := ∃ s, v = PyStr s.
Definition is_int (v : pyval) : Prop := ∃ z, v = PyInt z.

(** [a < b]: defined between two strings and between two ints only. *)
Definition py_lt (a b : pyval) : result bool :=
  match a, b with
  | PyStr s, PyStr t => Ok (String.ltb s t)
  | PyInt x, PyInt y => Ok (x <? y)
  | _, _ => Raise TypeError
  end.

(** [str(z)] for an int. *)
Definition str_of_int (z : Z) : string :=
  NilZero.string_of_int (Z.to_int z).

Definition str_of_nat (n : nat) : string := str_of_int (Z.of_nat n).

(** [str(t)] for a tuple of ints, as an array shape prints. *)
Fixpoint join_comma (l : list string) : string :=
  match l with
  | [] => ""
  | [x] => x
  | x :: l' => x +:+ ", " +:+ join_comma l'
  end.

Definition str_of_shape (sh : list nat) : string :=
  match sh with
  | [n] => "(" +:+ str_of_nat n +:+ ",)"
  | _ => "(" +:+ join_comma (str_of_nat <$> sh) +:+ ")"
  end.

(** ** os.path *)

Module os_path.

Definition startswith_sep (s : string) : bool :=
  match s with
  | String c _ => bool_decide (c = "/"%char)
  | EmptyString => false
  end.

Fixpoint endswith_sep (s : string) : bool :=
  match s with
  | EmptyString => false
  | String c EmptyString => bool_decide (c = "/"%char)
  | String _ s' => endswith_sep s'
  end.

(** [os.path.join(a, b)] (posix). *)
Definition join (a b : string) : string :=
  if startswith_sep b then b
  else if bool_decide (a = "") || endswith_sep a then a +:+ b
  else a +:+ "/" +:+ b.

End os_path.

(** ** Paths as the system reads them

    The system reads an absolute path component by component from the
    root: an empty component and [.] stay in place, [..] goes up (the
    root is its own parent).  The canonical path of a file or directory
    names the components that are left.  Symbolic links are not
    modelled. *)

(** [s.split('/')] *)
Fixpoint split_sep (s : string) : list string :=
  match s with
  | EmptyString => [""]
  | String c s' =>
      if bool_decide (c = "/"%char) then "" :: split_sep s'
      else
        match split_sep s' with
        | [] => [String c ""]
        | x :: l => String c x :: l
        end
  end.

(** ['/'.join(l)] *)
Fixpoint join_sep (l : list string) : string :=
  match l with
  | [] => ""
  | [x] => x
  | x :: l' => x +:+ "/" +:+ join_sep l'
  end.

(** One component further; [seen] holds the components so far, the last
    one first. *)
Definition walk (seen : list string) (comp : string) : list string :=
  if bool_decide (comp = "") || bool_decide (comp = ".") then seen
  else if bool_decide (comp = "..") then tail seen
  else comp :: seen.

Definition canonical (path : string) : string :=
  "/" +:+ join_sep (reverse (foldl walk [] (split_sep path))).

(** ** numpy arrays *)

(** An array is its shape and its elements in row-major order. *)
Record ndarray : Type := mk_ndarray {
  shape : list nat;
  data : list pyval
}.

Definition ndim (X : ndarray) : nat := length (shape X).

(** The invariant numpy maintains: as many elements as the shape says. *)
Definition ndarray_wf (X : ndarray) : Prop :=
  length (data X) = foldr Nat.mul 1%nat (shape X).

(** [len(X)]: the extent of the first axis (of an array that has one). *)
Definition len (X : ndarray) : nat := default 0%nat (shape X !! 0%nat).

(** [X[:, 0]] on the elements of an array with [n] rows of [c] columns. *)
Fixpoint first_column (c : nat) (d : list pyval) (n : nat) : list pyval :=
  match n with
  | O => []
  | S n' =>
      match d with
      | [] => []
      | x :: _ => x :: first_column c (drop c d) n'
      end
  end.

(** [np.asarray(l)] on a Python list of strings, ints and [None]s.  A
    list that holds a [None] becomes an array of objects, its items as
    they are.  Otherwise a list that holds a string becomes an array of
    strings: every int is replaced by its decimal writing, and a string
    read back from such an array has lost its trailing NULs.  A list of
    ints stays one. *)
Fixpoint rstrip_nul (s : string) : string :=
  match s with
  | EmptyString => EmptyString
  | String c s' =>
      match rstrip_nul s' with
      | EmptyString =>
          if bool_decide (c = "000"%char) then EmptyString
          else String c EmptyString
      | r => String c r
      end
  end.

Definition as_str_item (v : pyval) : pyval :=
  match v with
  | PyStr s => PyStr (rstrip_nul s)
  | PyInt z => PyStr (str_of_int z)
  | PyNone => PyNone
  end.

Definition np_asarray (l : list pyval) : ndarray :=
  mk_ndarray [length l]
    (if bool_decide (PyNone ∈ l) then l
     else if existsb isinstance_str l then as_str_item <$> l
     else l).

(** Insertion of [x] into a sorted list with Python's [<]. *)
Fixpoint insort (x : pyval) (l : list pyval) : result (list pyval) :=
  match l with
  | [] => Ok [x]
  | y :: l' =>
      rbind (py_lt x y) (λ b,
        if b : bool then Ok (x :: l)
        else rbind (insort x l') (λ r, Ok (y :: r)))
  end.

(** [np.sort]: raises [TypeError] as soon as two elements cannot be
    compared. *)
Fixpoint np_sort (l : list pyval) : result (list pyval) :=
  match l with
  | [] => Ok []
  | x :: l' => rbind (np_sort l') (insort x)
  end.

(** Position of [x] in [u]. *)
Definition index_of (x : pyval) (u : list pyval) : nat :=
  default 0%nat (fst <$> list_find (λ y, y = x) u).

(** [np.unique(ar, return_inverse=True)] on a 1-D array: the sorted distinct
    values, and for every position of [ar] the index of its value among
    them. *)
Definition np_unique (ar : list pyval) : result (list pyval * list nat) :=
  rbind (np_sort ar) (λ sorted,
    let unq := remove_dups sorted in
    Ok (unq, (λ x, index_of x unq) <$> ar)).

(** The numbers a matrix holds, and what [np.empty] leaves in a fresh cell
    (whatever the memory held).  The provider returns float32 and the
    matrix is float64; the copy from one to the other is exact, and one type
    of numbers stands for both. *)
Class Scalars : Type := {
  scalar : Type;
  np_empty_cell : nat → nat → scalar
}.

Section NumPy.
Context `{Scalars}.

(** [np.empty((r, c))]; a negative extent is refused. *)
Definition np_empty (r : nat) (c : Z) : result (list (list scalar)) :=
  if c <? 0 then Raise ValueError
  else Ok ((λ i, np_empty_cell i <$> seq 0 (Z.to_nat c)) <$> seq 0 r).

(** Broadcasting a 1-D array to a row of length [c]. *)
Definition broadcast_to (c : nat) (v : list scalar) : result (list scalar) :=
  if bool_decide (length v = c) then Ok v
  else
    match v with
    | [a] => Ok (replicate c a)
    | _ => Raise ValueError
    end.

(** [out[idx] = v] *)
Definition setitem_row (out : list (list scalar)) (idx : nat)
    (v : list scalar) : result (list (list scalar)) :=
  match out !! idx with
  | None => Raise IndexError
  | Some row => rbind (broadcast_to (length row) v) (λ r, Ok (<[idx := r]> out))
  end.

(** [out[lookup]]: gather rows by index. *)
Fixpoint take_rows (out : list (list scalar)) (lookup : list nat)
    : result (list (list scalar)) :=
  match lookup with
  | [] => Ok []
  | j :: lookup' =>
      match out !! j with
      | None => Raise IndexError
      | Some row => rbind (take_rows out lookup') (λ rows, Ok (row :: rows))
      end
  end.

End NumPy.

(** ** The fasttext package

    A loaded model answers [get_dimension] and [get_sentence_vector];
    [fasttext.util.reduce_model] shrinks it.  The two laws are what the
    package documents: a sentence vector has the model's dimension, and a
    model reduced to [k] dimensions has dimension [k]. *)
Class FastText `{Scalars} : Type := {
  model : Type;
  get_dimension : model → nat;
  get_sentence_vector : model → string → result (list scalar);
  util_reduce_model : model → Z → model;
  get_sentence_vector_length : ∀ m s v,
    get_sentence_vector m s = Ok v → length v = get_dimension m;
  util_reduce_model_dimension : ∀ m k,
    0 < k ≤ Z.of_nat (get_dimension m) →
    get_dimension (util_reduce_model m k) = Z.to_nat k
}.

(** ** What a call that reaches the system ends with *)

(** What [os.chdir] fails with: [FileNotFoundError], [NotADirectoryError],
    [PermissionError]. *)
Inductive os_error : Type := ENOENT | ENOTDIR | EACCES.

Inductive raised : Type :=
  | OSError (e : os_error)
  | Error (e : exn).

Inductive outcome (A : Type) : Type :=
  | Returned (a : A)
  | Failed (e : raised).
Arguments Returned {A} a.
Arguments Failed {A} e.

Section PretrainedFastText.
Context `{FastText}.

(** *** Instance attributes and the outside world *)

Record PretrainedFastText : Type := mk_self {
  n_components : Z;
  language : string;
  bin_dir : string;
  file_path : string;
  ft_model : option model   (* [None]: the attribute is not set *)
}.

Definition set_n_components (k : Z) (self : PretrainedFastText) :=
  mk_self k (language self) (bin_dir self) (file_path self) (ft_model self).

Definition set_ft_model (m : model) (self : PretrainedFastText) :=
  mk_self (n_components self) (language self) (bin_dir self)
    (file_path self) (Some m).

(** A regular file holds a fastText binary or something else. *)
Inductive file : Type :=
  | ModelFile (m : model)
  | OtherFile.

(** The regular files, by the path that reaches them, and the calls made
    to [get_sentence_vector] so far, oldest first. *)
Record world : Type := mk_world {
  files : gmap string file;
  calls : list pyval
}.

(** The world after the calls [l] to the provider. *)
Definition called (l : list pyval) (w : world) : world :=
  mk_world (files w) (calls w ++ l).

Definition state : Type := PretrainedFastText * world.

(** *** The monad of methods *)

Definition M (A : Type) : Type := state → result A * state.

Definition ret {A} (a : A) : M A := λ st, (Ok a, st).

Definition bind {A B} (m : M A) (k : A → M B) : M B :=
  λ st,
    match m st with
    | (Ok a, st') => k a st'
    | (Raise e, st') => (Raise e, st')
    end.

Definition raise {A} (e : exn) : M A := λ st, (Raise e, st).

Definition lift {A} (r : result A) : M A := λ st, (r, st).

Definition getattr {A} (f : PretrainedFastText → A) : M A :=
  λ st, (Ok (f st.1), st).

Definition setattr (upd : PretrainedFastText → PretrainedFastText) : M unit :=
  λ st, (Ok tt, (upd st.1, st.2)).

(** [assert cond, msg] *)
Definition assert (cond : bool) (msg : string) : M unit :=
  if cond then ret tt else raise (AssertionError msg).

Notation "x <- m ;; k" := (bind m (λ x, k))
  (at level 100, m at next level, right associativity).
Notation "m ;;; k" := (bind m (λ _, k))
  (at level 100, right associativity).

(** [self.ft_model]: an attribute that is not set cannot be read. *)
Definition getattr_ft_model : M model :=
  λ st,
    match ft_model st.1 with
    | Some m => (Ok m, st)
    | None => (Raise AttributeError, st)
    end.

(** *** Calls into os.path and fasttext *)

Definition os_path_isfile (p : string) : M bool :=
  λ st, (Ok (bool_decide (is_Some (files st.2 !! p))), st).

(** [fasttext.load_model(p)] *)
Definition fasttext_load_model (p : string) : M model :=
  λ st,
    match files st.2 !! p with
    | Some (ModelFile m) => (Ok m, st)
    | _ => (Raise ValueError, st)
    end.

(** [m.get_sentence_vector(x)]: the call is recorded; the package reads
    [x] as a string. *)
Definition call_get_sentence_vector (m : model) (x : pyval)
    : M (list scalar) :=
  λ st,
    let st' := (st.1, called [x] st.2) in
    match x with
    | PyStr s => (get_sentence_vector m s, st')
    | _ => (Raise AttributeError, st')
    end.

(** [fasttext.util.reduce_model(self.ft_model, self.n_components)]: the
    model object is changed in place. *)
Definition call_util_reduce_model : M unit :=
  m <- getattr_ft_model ;;
  k <- getattr n_components ;;
  setattr (set_ft_model (util_reduce_model m k)).

(** *** Messages *)

Definition default_file_name (language : string) (n : Z) : string :=
  "cc." +:+ language +:+ "." +:+ str_of_int n +:+ ".bin".

Definition not_found_advice : string :=
  " doesn't exist.                Download it with self.download_model(), or from                https://fasttext.cc/docs/en/crawl-vectors.html.                Then load it manually with self.load_model().".

Definition not_found_msg (file_path_300 : string) : string :=
  "The file " +:+ file_path_300 +:+ not_found_advice.

Definition cannot_expand_msg (current target : Z) : string :=
  "Cannot expand embedding            size from " +:+ str_of_int current
    +:+ " to " +:+ str_of_int target +:+ ".".

Definition not_loaded_msg : string :=
  "The fastText model hasn't been            automatically loaded. Load it manually with self.load_model().".

Definition shape_msg (sh : list nat) : string :=
  "ERROR:        shape " +:+ str_of_shape sh
    +:+ " of input array is not supported.".

Definition not_string_msg : string := "ERROR: Input data is not string.".

(** *** Methods *)

Definition load_model : M unit :=
  bin_dir <- getattr bin_dir ;;
  language <- getattr language ;;
  let file_path_300 := os_path.join bin_dir (default_file_name language 300) in
  file_path <- getattr file_path ;;
  exact <- os_path_isfile file_path ;;
  if exact : bool then
    m <- fasttext_load_model file_path ;;
    setattr (set_ft_model m)
  else
    raw <- os_path_isfile file_path_300 ;;
    if raw : bool then
      m <- fasttext_load_model file_path_300 ;;
      setattr (set_ft_model m) ;;;
      call_util_reduce_model
    else
      raise (FileNotFoundError (not_found_msg file_path_300)).

(** The attributes [__init__] sets before it loads the model. *)
Definition init_attributes (n_components : Z) (language bin_dir : string)
    (file_name : option string) : PretrainedFastText :=
  let file_name :=
    match file_name with
    | None => default_file_name language n_components
    | Some f => f
    end in
  mk_self (if n_components <? 300 then n_components else 300)
    language bin_dir (os_path.join bin_dir file_name) None.

(** The constructor runs on a fresh object: the result carries the object
    as [load_model] left it, also when it raised. *)
Definition __init__ (n_components : Z) (language bin_dir : string)
    (file_name : option string) (w : world) : result unit * state :=
  load_model (init_attributes n_components language bin_dir file_name, w).

Definition reduce_model (n_components' : Z) : M unit :=
  current <- getattr n_components ;;
  assert (n_components' <? current)
    (cannot_expand_msg current n_components') ;;;
  setattr (set_n_components n_components') ;;;
  call_util_reduce_model.

(** [hasattr(self, 'ft_model')] *)
Definition fit : M PretrainedFastText :=
  loaded <- getattr (λ self, bool_decide (is_Some (ft_model self))) ;;
  assert loaded not_loaded_msg ;;;
  getattr id.

(** The condition on the shape, as the assertion of [transform] writes
    it: [X.ndim == 1 or (X.ndim == 2 and X.shape[1] == 1)]. *)
Definition supported_shape (sh : list nat) : bool :=
  bool_decide (length sh = 1%nat)
  || (bool_decide (length sh = 2%nat) && bool_decide (sh !! 1%nat = Some 1%nat)).

(** The shape check of [transform] and the flattening of a single
    column: [if X.ndim == 2: X = X[:, 0]]. *)
Definition check_shape (X : ndarray) : result (list pyval) :=
  if supported_shape (shape X) then
    if bool_decide (ndim X = 2%nat)
    then Ok (first_column (default 0%nat (shape X !! 1%nat)) (data X) (len X))
    else Ok (data X)
  else Raise (AssertionError (shape_msg (shape X))).

(** The check on the first item. *)
Definition check_first (X : list pyval) : result unit :=
  match X !! 0%nat with
  | None => Raise IndexError
  | Some x0 =>
      if isinstance_str x0 then Ok tt
      else Raise (AssertionError not_string_msg)
  end.

(** The loop over [enumerate(unq_X)]. *)
Fixpoint embed_unique (items : list (nat * pyval))
    (unq_X_out : list (list scalar)) : M (list (list scalar)) :=
  match items with
  | [] => ret unq_X_out
  | (idx, x) :: items' =>
      m <- getattr_ft_model ;;
      v <- call_get_sentence_vector m x ;;
      unq_X_out' <- lift (setitem_row unq_X_out idx v) ;;
      embed_unique items' unq_X_out'
  end.

Definition enumerate {A} (l : list A) : list (nat * A) :=
  zip (seq 0 (length l)) l.

(** The deduplicated lookup, on the checked 1-D array. *)
Definition lookup_embeddings (X : list pyval) : M (list (list scalar)) :=
  unq <- lift (np_unique X) ;;
  let '(unq_X, lookup) := unq in
  n <- getattr n_components ;;
  unq_X_out <- lift (np_empty (length unq_X) n) ;;
  unq_X_out <- embed_unique (enumerate unq_X) unq_X_out ;;
  lift (take_rows unq_X_out lookup).

Definition transform (X : ndarray) : M (list (list scalar)) :=
  X <- lift (check_shape X) ;;
  lift (check_first X) ;;;
  lookup_embeddings X.

(** The provider answers on [x]. *)
Definition embeddable (m : model) (x : pyval) : Prop :=
  ∃ s v, x = PyStr s ∧ get_sentence_vector m s = Ok v.

(** *** The reference the deduplicated lookup is compared with

    One call to the provider per row, in the order of the rows. *)
Fixpoint naive_per_row (m : model) (X : list pyval)
    : result (list (list scalar)) :=
  match X with
  | [] => Ok []
  | PyStr s :: X' =>
      rbind (get_sentence_vector m s) (λ v,
        rbind (naive_per_row m X') (λ rows, Ok (v :: rows)))
  | _ :: _ => Raise AttributeError
  end.

(** *** [save_model] and the working directory

    [save_model] moves the process into [bin_dir], writes the model, and
    moves back, so it needs the working directory besides the files.  A
    process knows its working directory and its files by absolute paths
    that reach them; a directory or a file has many such spellings and
    one canonical path ([canonical], above), and what is done through
    one spelling is seen through all.  Whether a directory can be entered
    and whether a path can be opened for writing is for the system to
    say: the process carries its answers. *)

Record process : Type := mk_process {
  disk : gmap string file;                 (* regular files, by absolute paths that reach them *)
  workdir : string;                        (* an absolute path that reaches the working directory *)
  chdir_errno : string → option os_error;  (* [None]: the directory can be entered *)
  writable : string → bool                 (* the path can be opened for writing *)
}.

(** [os.getcwd()]: the canonical path of the working directory. *)
Definition os_getcwd (p : process) : string := canonical (workdir p).

(** [os.chdir(d)]: a relative [d] is read from the working directory. *)
Definition os_chdir (d : string) (p : process) : outcome unit * process :=
  if bool_decide (d = "") then (Failed (OSError ENOENT), p)
  else
    let target := os_path.join (workdir p) d in
    match chdir_errno p target with
    | Some e => (Failed (OSError e), p)
    | None =>
        (Returned tt, mk_process (disk p) target (chdir_errno p) (writable p))
    end.

(** Writing [f] at [target]: the file is now reached by [target], and every
    path that reached a file at the same place before reaches [f]. *)
Definition write_file (target : string) (f : file) (d : gmap string file)
    : gmap string file :=
  <[target := f]>
    (map_imap (λ q old,
       Some (if bool_decide (canonical q = canonical target) then f else old))
       d).

(** [m.save_model(file_name)]: the package raises [ValueError] when the
    file cannot be opened for saving. *)
Definition ft_save_model (m : model) (file_name : string) (p : process)
    : outcome unit * process :=
  let target := os_path.join (workdir p) file_name in
  if writable p target
  then (Returned tt,
        mk_process (write_file target (ModelFile m) (disk p)) (workdir p)
          (chdir_errno p) (writable p))
  else (Failed (Error ValueError), p).

(** [save_model] reads the attributes and changes none. *)
Definition save_model (file_name : option string) (self : PretrainedFastText)
    (p : process) : outcome unit * process :=
  let cwd := os_getcwd p in
  match os_chdir (bin_dir self) p with
  | (Failed e, p1) => (Failed e, p1)
  | (Returned _, p1) =>
      let file_name :=
        match file_name with
        | None => default_file_name (language self) (n_components self)
        | Some f => f
        end in
      match ft_model self with
      | None => (Failed (Error AttributeError), p1)
      | Some m =>
          match ft_save_model m file_name p1 with
          | (Failed e, p2) => (Failed e, p2)
          | (Returned _, p2) => os_chdir cwd p2
          end
      end
  end.

(** The name [save_model] writes under. *)
Definition saved_name (fname : option string) (self : PretrainedFastText)
    : string :=
  match fname with
  | None => default_file_name (language self) (n_components self)
  | Some f => f
  end.

(** Where [save_model] writes: the name, seen from [bin_dir], seen from
    the working directory. *)
Definition saved_path (fname : option string) (self : PretrainedFastText)
    (p : process) : string :=
  os_path.join (os_path.join (workdir p) (bin_dir self))
    (saved_name fname self).

(** The world a method that stays in place meets in a process, through
    the paths the process knows its files by. *)
Definition world_of (p : process) (calls : list pyval) : world :=
  mk_world (disk p) calls.

End PretrainedFastText.

(** ** A provider to run the class on

    Numbers are integers; a model is just its dimension [d]; the vector of a
    string is made of its length and of the sum of its bytes.  As fastText
    does, the provider refuses a string that holds a newline. *)
Module Sample.

#[global] Instance sample_scalars : Scalars :=
  {| scalar := Z; np_empty_cell := λ _ _, -1 |}.

Definition byte_sum (s : string) : Z :=
  foldr (λ c acc, Z.of_N (N_of_ascii c) + acc) 0 (list_ascii_of_string s).

Definition has_newline (s : string) : bool :=
  bool_decide ("010"%char ∈ list_ascii_of_string s).

Definition sentence_vector (d : nat) (s : string) : result (list Z) :=
  if has_newline s then Raise ValueError
  else Ok ((λ j, byte_sum s + Z.of_nat (j * String.length s)) <$> seq 0 d).

Definition reduce (d : nat) (k : Z) : nat :=
  if bool_decide (0 < k ≤ Z.of_nat d) then Z.to_nat k else d.

#[global, refine] Instance sample_fasttext : FastText :=
  {| model := nat;
     get_dimension := λ d, d;
     get_sentence_vector := sentence_vector;
     util_reduce_model := reduce |}.
Proof.
  - intros d s v. unfold sentence_vector.
    destruct (has_newline s); [discriminate|].
    intros [= <-]. by rewrite length_fmap, length_seq.
  - intros d k Hk. unfold reduce. by rewrite bool_decide_eq_true_2.
Defined.

Definition cat_dog_cat : ndarray :=
  mk_ndarray [3%nat] [PyStr "cat"; PyStr "dog"; PyStr "cat"].

(** An embedder of 3 components over a model of 3 dimensions, and a
    world with no file and no call yet. *)
Definition embedder3 : PretrainedFastText :=
  mk_self 3 "en" "bins" "bins/cc.en.3.bin" (Some 3%nat).

Definition quiet : world := mk_world ∅ [].

(** The same embedder over a model of a single dimension. *)
Definition embedder3_over_1 : PretrainedFastText :=
  mk_self 3 "en" "bins" "bins/tiny.bin" (Some 1%nat).

(** [embedder3] after [reduce_model 2]. *)
Definition embedder2 : PretrainedFastText :=
  mk_self 2 "en" "bins" "bins/cc.en.3.bin" (Some 2%nat).

(** What the constructor builds when asked for 500 components where a
    file named for 500 holds a model of 500 dimensions. *)
Definition embedder_500 : PretrainedFastText :=
  mk_self 300 "en" "bins" "bins/cc.en.500.bin" (Some 500%nat).

(** The matrix of [cat_dog_cat] in 3 dimensions. *)
Definition cat_dog_cat_rows : list (list Z) :=
  [[312; 315; 318]; [314; 317; 320]; [312; 315; 318]].

(** A 5 by 2 array, a 5 by 1 array and the 1-D array of its values. *)
Definition five_names : list pyval :=
  [PyStr "ada"; PyStr "bob"; PyStr "ada"; PyStr "cy"; PyStr "bob"].

Definition five_by_two : ndarray :=
  mk_ndarray [5%nat; 2%nat] (five_names ++ five_names).

Definition five_by_one : ndarray := mk_ndarray [5%nat; 1%nat] five_names.

Definition five : ndarray := mk_ndarray [5%nat] five_names.

(** Object arrays that mix strings and ints. *)
Definition str_then_int : ndarray :=
  mk_ndarray [2%nat] [PyStr "a"; PyInt 1].

Definition int_then_str : ndarray :=
  mk_ndarray [2%nat] [PyInt 1; PyStr "a"].

(** A storage directory that holds the 300-dimensional English model
    only. *)
Definition only_300 : world :=
  mk_world {[ "bins/cc.en.300.bin" := ModelFile 300%nat ]} [].

(** A storage directory that also holds a model of 500 dimensions under
    the default name for 500 components. *)
(** A process at home: [/srv/bins] and the home directory can be entered,
    every path can be written. *)
Definition at_home : process :=
  mk_process ∅ "/home/ada"
    (λ d, if bool_decide (d = "/srv/bins") || bool_decide (d = "/home/ada")
          then None else Some ENOENT)
    (λ _, true).

(** A process at home with the default storage directory beside it: the
    directory already holds a model of 7 dimensions under the name for 2
    components, and there is a file of notes. *)
Definition in_project : process :=
  mk_process
    (<[ "/home/ada/fastText_bins/cc.en.2.bin" := ModelFile 7%nat ]>
       {[ "/home/ada/notes.txt" := OtherFile ]})
    "/home/ada"
    (λ d, if bool_decide (d = "/home/ada/./fastText_bins")
             || bool_decide (d = "/home/ada")
          then None else Some ENOENT)
    (λ _, true).

(** The same with a disk that is full. *)
Definition disk_full : process :=
  mk_process (disk in_project) "/home/ada" (chdir_errno in_project)
    (λ _, false).

(** [in_project] after [save_model()] by [embedder2_default]. *)
Definition saved_in_project : process :=
  mk_process
    (write_file "/home/ada/./fastText_bins/cc.en.2.bin" (ModelFile 2%nat)
       (disk in_project))
    "/home/ada" (chdir_errno in_project) (writable in_project).

(** [embedder2] with the default storage directory. *)
Definition embedder2_default : PretrainedFastText :=
  mk_self 2 "en" "./fastText_bins" "./fastText_bins/cc.en.3.bin"
    (Some 2%nat).

(** [embedder2] with its storage directory given by an absolute path. *)
Definition embedder2_srv : PretrainedFastText :=
  mk_self 2 "en" "/srv/bins" "/srv/bins/cc.en.3.bin" (Some 2%nat).

(** A string of two lines, which the provider refuses, and a batch that
    holds it. *)
Definition two_lines : string := String "a" (String "010" "b").

Definition dog_and_two_lines : ndarray :=
  mk_ndarray [2%nat] [PyStr "dog"; PyStr two_lines].

Definition dog_only : ndarray := mk_ndarray [1%nat] [PyStr "dog"].

(** [embedder3] with a negative [n_components], and without its model. *)
Definition embedder_minus : PretrainedFastText :=
  mk_self (-1) "en" "bins" "bins/cc.en.-1.bin" (Some 3%nat).

Definition embedder_unloaded : PretrainedFastText :=
  mk_self 3 "en" "bins" "bins/cc.en.3.bin" None.

(** A storage directory where the file named for 50 components holds a
    model of 7 dimensions. *)
Definition with_odd_50 : world :=
  mk_world (<[ "bins/cc.en.50.bin" := ModelFile 7%nat ]> (files only_300)) [].

Definition with_500 : world :=
  mk_world (<[ "bins/cc.en.500.bin" := ModelFile 500%nat ]> (files only_300)) [].

End Sample.

(** * Properties *)

(** ** Results *)

Lemma rbind_Ok {A B} (r : result A) (k : A → result B) (b : B) :
  rbind r k = Ok b → ∃ a, r = Ok a ∧ k a = Ok b.
Proof. destruct r as [a|e]; simpl; [eauto | discriminate]. Qed.

(** ** Sorting and [np.unique] *)

Lemma py_lt_Ok a b r :
  py_lt a b = Ok r → (is_str a ∧ is_str b) ∨ (is_int a ∧ is_int b).
Proof.
  destruct a, b; simpl; try discriminate; intros _;
    [left | right]; split; eexists; reflexivity.
Qed.

Lemma insort_Permutation x l r : insort x l = Ok r → r ≡ₚ x :: l.
Proof.
  revert r. induction l as [|y l IH]; simpl; intros r Hr.
  - by inversion Hr.
  - apply rbind_Ok in Hr as ([] & _ & Hr).
    + by inversion Hr.
    + apply rbind_Ok in Hr as (r' & Hr' & Hr). inversion Hr; subst.
      rewrite (IH _ Hr'). apply Permutation_swap.
Qed.

Lemma np_sort_Permutation l s : np_sort l = Ok s → s ≡ₚ l.
Proof.
  revert s. induction l as [|x l IH]; simpl; intros s Hs.
  - by inversion Hs.
  - apply rbind_Ok in Hs as (s' & Hs' & Hs).
    rewrite (insort_Permutation _ _ _ Hs). by rewrite (IH _ Hs').
Qed.

(** A sort that went through compared every element with another one: the
    array holds strings only, or ints only, or a single element. *)
Lemma np_sort_Ok_kind l s :
  np_sort l = Ok s →
  Forall is_str l ∨ Forall is_int l ∨ (length l ≤ 1)%nat.
Proof.
  revert s. induction l as [|x l IH]; simpl; intros s Hs.
  - left. constructor.
  - apply rbind_Ok in Hs as (s' & Hs' & Hs).
    pose proof (np_sort_Permutation _ _ Hs') as Hperm.
    destruct s' as [|y s'].
    { apply Permutation_nil_l in Hperm. subst l. right; right. simpl; lia. }
    assert (y ∈ l) as Hy by (rewrite <- Hperm; left).
    simpl in Hs. apply rbind_Ok in Hs as (b & Hlt & _).
    apply py_lt_Ok in Hlt as [[Hx Hy']|[Hx Hy']];
      destruct (IH _ Hs') as [Hall|[Hall|Hlen]].
    + left. by constructor.
    + rewrite Forall_forall in Hall. destruct (Hall _ Hy) as [z ->].
      destruct Hy' as [? [=]].
    + left. constructor; [done|].
      destruct l as [|y' [|? ?]]; simpl in Hlen; try lia; [constructor|].
      apply list_elem_of_singleton in Hy as ->. by repeat constructor.
    + rewrite Forall_forall in Hall. destruct (Hall _ Hy) as [z ->].
      destruct Hy' as [? [=]].
    + right; left. by constructor.
    + right; left. constructor; [done|].
      destruct l as [|y' [|? ?]]; simpl in Hlen; try lia; [constructor|].
      apply list_elem_of_singleton in Hy as ->. by repeat constructor.
Qed.

Lemma np_sort_strings l : Forall is_str l → ∃ s, np_sort l = Ok s.
Proof.
  induction 1 as [|x l [sx ->] Hl [s Hs]]; simpl; [eauto|].
  rewrite Hs. simpl.
  assert (Forall is_str s) as Hstr by (by rewrite (np_sort_Permutation _ _ Hs)).
  clear Hs Hl. induction Hstr as [|y s [sy ->] _ [r Hr]]; simpl; [eauto|].
  destruct (String.ltb sx sy); simpl; [eauto|]. rewrite Hr. simpl. eauto.
Qed.

Lemma index_of_lookup x u : x ∈ u → u !! index_of x u = Some x.
Proof.
  intros Hx. unfold index_of.
  destruct (list_find_elem_of (λ y, y = x) u x Hx eq_refl) as [[i y] Hfind].
  rewrite Hfind. simpl. apply list_find_Some in Hfind as (Hi & -> & _). done.
Qed.

(** What [np.unique] returns: no value twice, exactly the values of the
    array, and an inverse that leads every position back to its value. *)
Lemma np_unique_Ok ar unq lookup :
  np_unique ar = Ok (unq, lookup) →
  NoDup unq ∧ (∀ x, x ∈ unq ↔ x ∈ ar) ∧
  length lookup = length ar ∧
  ∀ i x, ar !! i = Some x →
    ∃ j, lookup !! i = Some j ∧ unq !! j = Some x.
Proof.
  unfold np_unique. intros Hu.
  apply rbind_Ok in Hu as (s & Hs & Hu). inversion Hu; subst; clear Hu.
  pose proof (np_sort_Permutation _ _ Hs) as Hperm.
  assert (∀ x, x ∈ remove_dups s ↔ x ∈ ar) as Hmem.
  { intros x. by rewrite elem_of_remove_dups, Hperm. }
  split_and!.
  - apply NoDup_remove_dups.
  - done.
  - by rewrite length_fmap.
  - intros i x Hi. exists (index_of x (remove_dups s)). split.
    + by rewrite list_lookup_fmap, Hi.
    + apply index_of_lookup, Hmem. by eapply list_elem_of_lookup_2.
Qed.

(** Past the check on the first item, [np.unique] goes through on strings
    only. *)
Lemma np_unique_Ok_strings ar r :
  check_first ar = Ok tt → np_unique ar = Ok r → Forall is_str ar.
Proof.
  unfold check_first, np_unique. intros Hfirst Hu.
  apply rbind_Ok in Hu as (s & Hs & _).
  destruct ar as [|x0 ar]; simpl in Hfirst; [discriminate|].
  destruct x0 as [s0| |]; simpl in Hfirst; try discriminate.
  destruct (np_sort_Ok_kind _ _ Hs) as [Hall|[Hall|Hlen]].
  - done.
  - apply Forall_cons in Hall as [[z Hz] _]. discriminate Hz.
  - destruct ar; simpl in Hlen; [|lia]. repeat constructor. by eexists.
Qed.

Lemma insort_Raise x l e : insort x l = Raise e → e = TypeError.
Proof.
  induction l as [|y l IH]; simpl; [discriminate|].
  destruct (py_lt x y) as [[]|e'] eqn:Hlt; simpl.
  - discriminate.
  - destruct (insort x l); simpl; [discriminate|]. intros [= <-]. by apply IH.
  - intros [= <-]. destruct x, y; simpl in Hlt; congruence.
Qed.

Lemma np_unique_Raise ar e : np_unique ar = Raise e → e = TypeError.
Proof.
  unfold np_unique. destruct (np_sort ar) as [s|e'] eqn:Hs; simpl; [discriminate|].
  intros [= <-]. clear -Hs. revert e' Hs.
  induction ar as [|x ar IH]; simpl; intros e Hs; [discriminate|].
  destruct (np_sort ar) as [s|e']; simpl in Hs.
  - by eapply insort_Raise.
  - inversion Hs; subst. by apply IH.
Qed.

Lemma first_column_1 d n : first_column 1 d n = take n d.
Proof.
  revert d. induction n as [|n IH]; intros [|x d]; simpl; try done.
  by rewrite drop_0, IH.
Qed.

(** On a well-formed array of a supported shape the shape check yields the
    elements in order. *)
Lemma check_shape_Ok X X1 :
  ndarray_wf X → check_shape X = Ok X1 →
  X1 = data X ∧ length X1 = len X.
Proof.
  unfold ndarray_wf, check_shape, supported_shape, ndim, len.
  destruct X as [sh d]; simpl. intros Hwf Hc.
  destruct sh as [|n [|[|[|c]] [|? ?]]]; simpl in Hc; try discriminate.
  - inversion Hc; subst. simpl in *. split; [done | lia].
  - inversion Hc; subst. simpl in *. rewrite first_column_1.
    rewrite take_ge by lia. split; [done | lia].
Qed.

(** ** Matrices *)

Section NumPyFacts.
Context `{Scalars}.

Lemma np_empty_Ok r c out :
  np_empty r c = Ok out →
  0 ≤ c ∧ length out = r ∧ Forall (λ row, length row = Z.to_nat c) out.
Proof.
  unfold np_empty. destruct (Z.ltb_spec c 0); [discriminate|].
  intros [= <-]. split_and!; [done | by rewrite length_fmap, length_seq |].
  apply Forall_fmap, Forall_forall. intros i _. simpl.
  by rewrite length_fmap, length_seq.
Qed.

Lemma broadcast_to_Ok c v r :
  broadcast_to c v = Ok r → length r = c.
Proof.
  unfold broadcast_to. case_bool_decide; [by intros [= <-]|].
  destruct v as [|a [|? ?]]; try discriminate.
  intros [= <-]. apply length_replicate.
Qed.

Lemma broadcast_to_same c v :
  length v = c → broadcast_to c v = Ok v.
Proof. intros Hv. unfold broadcast_to. by rewrite bool_decide_eq_true_2. Qed.

Lemma take_rows_Ok out lookup rows :
  take_rows out lookup = Ok rows →
  length rows = length lookup ∧
  ∀ i j, lookup !! i = Some j → rows !! i = out !! j ∧ is_Some (out !! j).
Proof.
  revert rows. induction lookup as [|j lookup IH]; simpl; intros rows Hr.
  - inversion Hr; subst. split; [done|]. intros i j [=].
  - destruct (out !! j) as [row|] eqn:Hj; [|discriminate].
    apply rbind_Ok in Hr as (rows' & Hrows' & Hr). inversion Hr; subst.
    destruct (IH _ Hrows') as [Hlen Hget]. split; [simpl; lia|].
    intros [|i] j' Hi; simpl in *.
    + inversion Hi; subst. rewrite Hj. eauto.
    + by apply Hget.
Qed.

Lemma take_rows_Raise out lookup e :
  take_rows out lookup = Raise e → e = IndexError.
Proof.
  induction lookup as [|j lookup IH]; simpl; [discriminate|].
  destruct (out !! j); [|congruence].
  destruct (take_rows out lookup); simpl; [discriminate|].
  intros [= <-]. by apply IH.
Qed.

Lemma take_rows_in_range out lookup :
  Forall (λ j, (j < length out)%nat) lookup →
  ∃ rows, take_rows out lookup = Ok rows.
Proof.
  induction 1 as [|j lookup Hj _ [rows Hrows]]; simpl; [eauto|].
  destruct (lookup_lt_is_Some_2 out j Hj) as [row ->].
  rewrite Hrows. simpl. eauto.
Qed.

End NumPyFacts.

(** ** The methods *)

Section Methods.
Context `{FastText}.

Implicit Types (self : PretrainedFastText) (w : world) (st : state).

Lemma bind_Ok {A B} (m : M A) (k : A → M B) st b st2 :
  bind m k st = (Ok b, st2) →
  ∃ a st1, m st = (Ok a, st1) ∧ k a st1 = (Ok b, st2).
Proof.
  unfold bind. destruct (m st) as [[a|e] st1]; [eauto | discriminate].
Qed.

Lemma bind_inv {A B} (m : M A) (k : A → M B) st r st2 :
  bind m k st = (r, st2) →
  (∃ e, m st = (Raise e, st2) ∧ r = Raise e) ∨
  (∃ a st1, m st = (Ok a, st1) ∧ k a st1 = (r, st2)).
Proof.
  unfold bind. destruct (m st) as [[a|e] st1]; [eauto|].
  intros [= <- <-]. eauto.
Qed.

Lemma lift_inv {A} (r r' : result A) st st' :
  lift r st = (r', st') → r' = r ∧ st' = st.
Proof. by intros [= <- <-]. Qed.

Lemma called_nil w : called [] w = w.
Proof. destruct w. unfold called. simpl. by rewrite app_nil_r. Qed.

Lemma called_app l1 l2 w : called l2 (called l1 w) = called (l1 ++ l2) w.
Proof. unfold called. simpl. by rewrite app_assoc. Qed.

Lemma call_get_sentence_vector_inv m x self w r st' :
  call_get_sentence_vector m x (self, w) = (r, st') →
  st' = (self, called [x] w) ∧
  (∀ v, r = Ok v → ∃ s, x = PyStr s ∧ get_sentence_vector m s = Ok v).
Proof.
  unfold call_get_sentence_vector. simpl.
  destruct x as [s| |]; intros [= <- <-]; (split; [done|]);
    intros v Hv; try discriminate. eauto.
Qed.

(** Whatever the loop does, it leaves the attributes and the files alone
    and only adds calls. *)
Lemma embed_unique_frame items out self w r self' w' :
  embed_unique items out (self, w) = (r, (self', w')) →
  self' = self ∧ ∃ l, w' = called l w.
Proof.
  revert out w. induction items as [|[idx x] items IH]; simpl; intros out w.
  - intros Hrun. unfold ret in Hrun. simplify_eq.
    split; [done|]. exists []. by rewrite called_nil.
  - intros Hrun.
    apply bind_inv in Hrun as [(e & Hm & _)|(m & st1 & Hm & Hrun)];
      unfold getattr_ft_model in Hm; simpl in Hm;
      destruct (ft_model self); simplify_eq.
    { split; [done|]. exists []. by rewrite called_nil. }
    apply bind_inv in Hrun as [(e & Hv & _)|(v & st1 & Hv & Hrun)];
      apply call_get_sentence_vector_inv in Hv as [Hst _]; simplify_eq.
    { split; [done|]. eauto. }
    apply bind_inv in Hrun as [(e & Hset & _)|(out1 & st1 & Hset & Hrun)];
      apply lift_inv in Hset as [_ ?]; simplify_eq.
    { split; [done|]. eauto. }
    apply IH in Hrun as [-> [l ->]]. split; [done|].
    exists (x :: l). by rewrite called_app.
Qed.

(** A loop that ran to its end called the provider on every item in turn
    and stored what it returned, broadcast to the row, at the item's
    index; the other rows are as before. *)
Lemma embed_unique_Ok l : ∀ k out self w out' st',
  embed_unique (zip (seq k (length l)) l) out (self, w) = (Ok out', st') →
  st' = (self, called l w) ∧
  length out' = length out ∧
  (∀ j, (j < k ∨ k + length l ≤ j)%nat → out' !! j = out !! j) ∧
  (∀ j x, l !! j = Some x →
     ∃ m s v row r,
       ft_model self = Some m ∧ x = PyStr s ∧
       get_sentence_vector m s = Ok v ∧
       out !! (k + j)%nat = Some row ∧
       broadcast_to (length row) v = Ok r ∧
       out' !! (k + j)%nat = Some r).
Proof.
  induction l as [|x l IH]; simpl; intros k out self w out' st' Hrun.
  - inversion Hrun; subst. rewrite called_nil.
    split_and!; [done..|]. intros j x [=].
  - apply bind_Ok in Hrun as (m & st1 & Hm & Hrun).
    unfold getattr_ft_model in Hm; simpl in Hm.
    destruct (ft_model self) as [m'|] eqn:Hmodel; simplify_eq.
    apply bind_Ok in Hrun as (v & st1 & Hv & Hrun).
    apply call_get_sentence_vector_inv in Hv as [-> Hv].
    destruct (Hv v eq_refl) as (s & -> & Hvec).
    apply bind_Ok in Hrun as (out1 & st1 & Hset & Hrun).
    apply lift_inv in Hset as [Hset ->]. symmetry in Hset.
    unfold setitem_row in Hset.
    destruct (out !! k) as [row|] eqn:Hrow; [|discriminate].
    apply rbind_Ok in Hset as (r & Hr & [= <-]).
    apply IH in Hrun as (-> & Hlen & Hout & Hitems).
    rewrite called_app. rewrite length_insert in Hlen.
    split_and!; [done..| |].
    + intros j Hj. rewrite Hout by lia.
      apply list_lookup_insert_ne. lia.
    + intros [|j] y Hy; simpl in Hy.
      * inversion Hy; subst. exists m, s, v, row, r.
        rewrite Nat.add_0_r. split_and!; [done..|].
        rewrite Hout by lia. apply list_lookup_insert_eq.
        by eapply lookup_lt_Some.
      * destruct (Hitems j y Hy) as (m' & s' & v' & row' & r' & Hi).
        exists m', s', v', row', r'.
        replace (k + S j)%nat with (S k + j)%nat by lia.
        destruct Hi as (? & ? & ? & Hrow' & ? & ?). split_and!; [congruence | done | done | | done | done].
        rewrite list_lookup_insert_ne in Hrow' by lia. done.
Qed.

(** [transform] changes no attribute and no file; it only calls the
    provider. *)
Lemma transform_frame X self w r self' w' :
  transform X (self, w) = (r, (self', w')) →
  self' = self ∧ ∃ l, w' = called l w.
Proof.
  assert (self = self ∧ ∃ l, w = called l w) as Hsame.
  { split; [done|]. exists []. by rewrite called_nil. }
  unfold transform, lookup_embeddings. intros Hrun.
  apply bind_inv in Hrun as [(e & Hc & _)|(X1 & st1 & Hc & Hrun)];
    apply lift_inv in Hc as [_ ?]; simplify_eq; [done|].
  apply bind_inv in Hrun as [(e & Hc & _)|(? & st1 & Hc & Hrun)];
    apply lift_inv in Hc as [_ ?]; simplify_eq; [done|].
  apply bind_inv in Hrun as [(e & Hc & _)|([unq lookup] & st1 & Hc & Hrun)];
    apply lift_inv in Hc as [_ ?]; simplify_eq; [done|].
  apply bind_inv in Hrun as [(e & Hc & _)|(n & st1 & Hc & Hrun)];
    unfold getattr in Hc; simplify_eq.
  apply bind_inv in Hrun as [(e & Hc & _)|(out0 & st1 & Hc & Hrun)];
    apply lift_inv in Hc as [_ ?]; simplify_eq; [done|].
  apply bind_inv in Hrun as [(e & Hc & _)|(out1 & [self1 w1] & Hc & Hrun)];
    apply embed_unique_frame in Hc as [? [l ?]]; simplify_eq; [eauto|].
  apply lift_inv in Hrun as [_ ?]; simplify_eq. eauto.
Qed.

(** What a call of [transform] that returned went through. *)
Lemma transform_Ok X self w out st' :
  transform X (self, w) = (Ok out, st') →
  ∃ X1 unq lookup m,
    check_shape X = Ok X1 ∧ check_first X1 = Ok tt ∧
    np_unique X1 = Ok (unq, lookup) ∧
    ft_model self = Some m ∧ 0 ≤ n_components self ∧
    st' = (self, called unq w) ∧
    length out = length X1 ∧
    ∀ i x, X1 !! i = Some x →
      ∃ s v r,
        x = PyStr s ∧ get_sentence_vector m s = Ok v ∧
        broadcast_to (Z.to_nat (n_components self)) v = Ok r ∧
        out !! i = Some r.
Proof.
  unfold transform, lookup_embeddings. intros Hrun.
  apply bind_Ok in Hrun as (X1 & st1 & Hshape & Hrun).
  apply lift_inv in Hshape as [Hshape ->]. symmetry in Hshape.
  apply bind_Ok in Hrun as ([] & st1 & Hfirst & Hrun).
  apply lift_inv in Hfirst as [Hfirst ->]. symmetry in Hfirst.
  apply bind_Ok in Hrun as ([unq lookup] & st1 & Hunq & Hrun).
  apply lift_inv in Hunq as [Hunq ->]. symmetry in Hunq.
  apply bind_Ok in Hrun as (n & st1 & Hn & Hrun).
  unfold getattr in Hn. simpl in Hn. inversion Hn; subst n st1; clear Hn.
  apply bind_Ok in Hrun as (out0 & st1 & Hempty & Hrun).
  apply lift_inv in Hempty as [Hempty ->]. symmetry in Hempty.
  apply np_empty_Ok in Hempty as (Hn & Hlen0 & Hrows0).
  apply bind_Ok in Hrun as (out1 & st1 & Hloop & Hrun).
  apply lift_inv in Hrun as [Hrows ->]. symmetry in Hrows.
  apply (embed_unique_Ok unq 0%nat) in Hloop as (-> & Hlen1 & _ & Hloop).
  apply take_rows_Ok in Hrows as [Hlen Hrows].
  destruct (np_unique_Ok _ _ _ Hunq) as (_ & _ & Hlenl & Hinv).
  assert (∀ i x, X1 !! i = Some x →
    ∃ m s v r, ft_model self = Some m ∧
      x = PyStr s ∧ get_sentence_vector m s = Ok v ∧
      broadcast_to (Z.to_nat (n_components self)) v = Ok r ∧
      out !! i = Some r) as Hall.
  { intros i x Hi. destruct (Hinv i x Hi) as (j & Hj & Hx).
    destruct (Hloop j x Hx) as (m & s & v & row & r & ? & ? & ? & Hrow & ? & Hr).
    simpl in Hrow, Hr. exists m, s, v, r.
    rewrite Forall_forall in Hrows0.
    rewrite <- (Hrows0 row) by (by eapply list_elem_of_lookup_2).
    split_and!; [done..|].
    destruct (Hrows i j Hj) as [-> _]. done. }
  destruct X1 as [|x0 X1]; [discriminate|].
  destruct (Hall 0%nat x0 eq_refl) as (m & _ & _ & _ & Hm & _).
  exists (x0 :: X1), unq, lookup, m.
  split_and!; [done.. | congruence |].
  intros i x Hi. destruct (Hall i x Hi) as (m' & s & v & r & ? & ?).
  exists s, v, r. replace m with m' by congruence. done.
Qed.

Lemma called_same l w : called l w = w → l = [].
Proof.
  destruct w as [fs cs]. unfold called. simpl. intros [= Hcs].
  apply (app_inv_head cs). by rewrite app_nil_r.
Qed.

Ltac no_call_on_record :=
  match goal with
  | Hw : called ?l ?w = ?w |- _ => apply called_same in Hw; discriminate Hw
  | Hw : ?w = called ?l ?w |- _ =>
      symmetry in Hw; apply called_same in Hw; discriminate Hw
  end.

(** A loop that raised without a call on record found no model. *)
Lemma embed_unique_Raise_no_call items out self w e self' :
  embed_unique items out (self, w) = (Raise e, (self', w)) →
  e = AttributeError.
Proof.
  destruct items as [|[idx x] items]; simpl; [discriminate|]. intros Hrun.
  apply bind_inv in Hrun as [(e' & Hm & ?)|(m & st1 & Hm & Hrun)];
    unfold getattr_ft_model in Hm; simpl in Hm;
    destruct (ft_model self); simplify_eq; [done|].
  apply bind_inv in Hrun as [(e' & Hv & ?)|(v & st1 & Hv & Hrun)];
    apply call_get_sentence_vector_inv in Hv as [Hst _]; simplify_eq.
  { no_call_on_record. }
  apply bind_inv in Hrun as [(e' & Hset & ?)|(out1 & st1 & Hset & Hrun)];
    apply lift_inv in Hset as [_ ?]; simplify_eq.
  { no_call_on_record. }
  apply embed_unique_frame in Hrun as [_ [l Hl]].
  rewrite called_app in Hl. symmetry in Hl. by apply called_same in Hl.
Qed.

Lemma shape_msg_not_string_msg sh : shape_msg sh ≠ not_string_msg.
Proof. unfold shape_msg, not_string_msg. simpl. discriminate. Qed.

Lemma check_shape_supported X :
  if supported_shape (shape X)
  then ∃ X1, check_shape X = Ok X1
  else check_shape X = Raise (AssertionError (shape_msg (shape X))).
Proof.
  unfold check_shape. destruct (supported_shape (shape X)); [|done].
  case_bool_decide; eauto.
Qed.

(** An assertion of [transform] that failed with nothing on record is
    the one on the shape or the one on the first item. *)
Lemma transform_AssertionError X self w msg :
  transform X (self, w) = (Raise (AssertionError msg), (self, w)) →
  check_shape X = Raise (AssertionError msg) ∨
  ∃ X1, check_shape X = Ok X1 ∧
        check_first X1 = Raise (AssertionError msg).
Proof.
  unfold transform, lookup_embeddings. intros Hrun.
  apply bind_inv in Hrun as [(e & Hc & ?)|(X1 & st1 & Hc & Hrun)];
    apply lift_inv in Hc as [Hshape ?]; simplify_eq; [by left|].
  right. exists X1. split; [done|].
  apply bind_inv in Hrun as [(e & Hc & ?)|(? & st1 & Hc & Hrun)];
    apply lift_inv in Hc as [Hfirst ?]; simplify_eq; [done|]. exfalso.
  apply bind_inv in Hrun as [(e & Hc & ?)|([unq lookup] & st1 & Hc & Hrun)];
    apply lift_inv in Hc as [Hunq ?]; simplify_eq.
  { symmetry in Hunq. by apply np_unique_Raise in Hunq. }
  apply bind_inv in Hrun as [(e & Hc & ?)|(n & st1 & Hc & Hrun)];
    unfold getattr in Hc; simplify_eq.
  apply bind_inv in Hrun as [(e & Hc & ?)|(out0 & st1 & Hc & Hrun)];
    apply lift_inv in Hc as [Hempty ?]; simplify_eq.
  { unfold np_empty in Hempty. by destruct (_ <? _). }
  apply bind_inv in Hrun as [(e & Hc & ?)|(out1 & [self1 w1] & Hc & Hrun)].
  { simplify_eq. by apply embed_unique_Raise_no_call in Hc. }
  apply lift_inv in Hrun as [Hrun ?]; simplify_eq.
  symmetry in Hrun. by apply take_rows_Raise in Hrun.
Qed.

Lemma embed_unique_succeeds m l : ∀ k out self w,
  ft_model self = Some m →
  Forall (embeddable m) l →
  (k + length l ≤ length out)%nat →
  Forall (λ row, length row = get_dimension m) out →
  ∃ out',
    embed_unique (zip (seq k (length l)) l) out (self, w)
    = (Ok out', (self, called l w)).
Proof.
  induction l as [|x l IH]; simpl; intros k out self w Hm Hl Hk Hout.
  - exists out. by rewrite called_nil.
  - apply Forall_cons in Hl as [(s & v & -> & Hv) Hl].
    destruct (lookup_lt_is_Some_2 out k) as [row Hrow]; [lia|].
    assert (length row = get_dimension m) as Hlen.
    { rewrite Forall_forall in Hout. apply Hout.
      by eapply list_elem_of_lookup_2. }
    assert (length v = get_dimension m) as Hlenv
      by (by eapply get_sentence_vector_length).
    destruct (IH (S k) (<[k:=v]> out) self (called [PyStr s] w))
      as [out' Hout']; [done | done | rewrite length_insert; lia | |].
    { apply Forall_insert; done. }
    exists out'. rewrite called_app in Hout'. simpl in Hout'.
    unfold bind at 1. unfold getattr_ft_model. simpl. rewrite Hm.
    unfold bind at 1. unfold call_get_sentence_vector. simpl. rewrite Hv.
    unfold bind at 1. unfold lift, setitem_row. rewrite Hrow.
    rewrite broadcast_to_same by lia. simpl. done.
Qed.

(** On a non-empty array of strings the provider answers on, an
    embedder whose model has [n_components] dimensions returns. *)
Lemma transform_succeeds X self w m :
  supported_shape (shape X) = true → ndarray_wf X →
  data X ≠ [] → Forall (embeddable m) (data X) →
  ft_model self = Some m →
  Z.of_nat (get_dimension m) = n_components self →
  ∃ out st', transform X (self, w) = (Ok out, st').
Proof.
  intros Hsh Hwf Hne Hall Hm Hdim.
  pose proof (check_shape_supported X) as Hshape. rewrite Hsh in Hshape.
  destruct Hshape as [X1 Hshape].
  destruct (check_shape_Ok _ _ Hwf Hshape) as [-> _].
  assert (check_first (data X) = Ok tt) as Hfirst.
  { unfold check_first. destruct (data X) as [|x0 d]; [done|]. simpl.
    apply Forall_cons in Hall as [(s & v & -> & _) _]. done. }
  destruct (np_sort_strings (data X)) as [sorted Hsorted].
  { eapply Forall_impl; [exact Hall|]. intros x (s & v & -> & _). by eexists. }
  assert (∃ unq lookup, np_unique (data X) = Ok (unq, lookup))
    as (unq & lookup & Hunq).
  { unfold np_unique. rewrite Hsorted. simpl. eauto. }
  destruct (np_unique_Ok _ _ _ Hunq) as (_ & Hmem & Hlenl & Hinv).
  assert (Forall (embeddable m) unq) as Hunq_all.
  { rewrite Forall_forall in Hall. apply Forall_forall.
    intros x Hx. by apply Hall, Hmem. }
  destruct (np_empty (length unq) (n_components self)) as [out0|e] eqn:Hempty.
  2:{ unfold np_empty in Hempty.
      destruct (Z.ltb_spec (n_components self) 0); [lia | discriminate]. }
  destruct (np_empty_Ok _ _ _ Hempty) as (_ & Hlen0 & Hrows0).
  destruct (embed_unique_succeeds m unq 0%nat out0 self w)
    as [out1 Hloop]; [done | done | simpl; lia | |].
  { eapply Forall_impl; [exact Hrows0|]. simpl. intros row ->. lia. }
  pose proof (embed_unique_Ok _ _ _ _ _ _ _ Hloop) as (_ & Hlen1 & _).
  destruct (take_rows_in_range out1 lookup) as [rows Hrows].
  { apply Forall_lookup. intros i j Hj.
    destruct (lookup_lt_is_Some_2 (data X) i) as [x Hx].
    { rewrite <- Hlenl. by eapply lookup_lt_Some. }
    destruct (Hinv i x Hx) as (j' & Hj' & Hu). simplify_eq.
    rewrite Hlen1, Hlen0. by eapply lookup_lt_Some. }
  exists rows, (self, called unq w).
  unfold transform, lookup_embeddings, enumerate.
  unfold bind at 1. unfold lift at 1. rewrite Hshape.
  unfold bind at 1. unfold lift at 1. rewrite Hfirst.
  unfold bind at 1. unfold lift at 1. rewrite Hunq.
  unfold bind at 1. unfold getattr at 1. simpl.
  unfold bind at 1. unfold lift at 1. rewrite Hempty.
  unfold bind at 1. rewrite Hloop.
  unfold lift. by rewrite Hrows.
Qed.

End Methods.

(** ** The deduplicated lookup *)

Section Transform.
Context `{FastText}.

Implicit Types (self : PretrainedFastText) (w : world) (st : state).

Lemma naive_per_row_pointwise m l : ∀ out,
  length out = length l →
  (∀ i x, l !! i = Some x →
     ∃ s v, x = PyStr s ∧ get_sentence_vector m s = Ok v ∧
            out !! i = Some v) →
  naive_per_row m l = Ok out.
Proof.
  induction l as [|x l IH]; intros [|row out] Hlen Hrows;
    simpl in Hlen; try discriminate; [done|].
  destruct (Hrows 0%nat x eq_refl) as (s & v & -> & Hv & [= ->]).
  simpl. rewrite Hv. simpl. rewrite (IH out); [done | lia |].
  intros i y Hy. exact (Hrows (S i) y Hy).
Qed.

(** Every row [transform] returns has [n_components] numbers. *)
Lemma transform_row_length X self w out st' :
  transform X (self, w) = (Ok out, st') →
  Forall (λ row, Z.of_nat (length row) = n_components self) out.
Proof.
  intros Hrun.
  apply transform_Ok in Hrun
    as (X1 & unq & lookup & m & _ & _ & _ & _ & Hn & _ & Hlen & Hrows).
  apply Forall_lookup. intros i row Hi.
  destruct (lookup_lt_is_Some_2 X1 i) as [x Hx].
  { rewrite <- Hlen. by eapply lookup_lt_Some. }
  destruct (Hrows i x Hx) as (s & v & r & _ & _ & Hr & Hout).
  apply broadcast_to_Ok in Hr. simplify_eq. lia.
Qed.

(** The matrix [transform] returns has one row per item of [X]. *)
Lemma transform_length X self w out st' :
  ndarray_wf X →
  transform X (self, w) = (Ok out, st') →
  length out = len X.
Proof.
  intros Hwf Hrun.
  apply transform_Ok in Hrun
    as (X1 & unq & lookup & m & Hshape & _ & _ & _ & _ & _ & Hlen & _).
  destruct (check_shape_Ok _ _ Hwf Hshape) as [_ Hlen1]. congruence.
Qed.



(** C3. Shape contract: the matrix a call of [transform] returns has
    [len(X)] rows, each of [n_components] numbers. *)
Theorem transform_shape X self w out st' :
  ndarray_wf X →
  transform X (self, w) = (Ok out, st') →
  length out = len X ∧
  Forall (λ row, Z.of_nat (length row) = n_components self) out.
Proof.
  intros Hwf Hrun. pose proof Hrun as Hrun0.
  apply transform_Ok in Hrun
    as (X1 & unq & lookup & m & Hshape & _ & _ & _ & Hn & _ & Hlen & Hrows).
  destruct (check_shape_Ok _ _ Hwf Hshape) as [-> Hlen1].
  split; [congruence|]. by eapply transform_row_length.
Qed.

Lemma transform_unsupported X self w :
  supported_shape (shape X) = false →
  transform X (self, w)
  = (Raise (AssertionError (shape_msg (shape X))), (self, w)).
Proof.
  intros Hsh. pose proof (check_shape_supported X) as Hshape.
  rewrite Hsh in Hshape. unfold transform, bind, lift. by rewrite Hshape.
Qed.

Lemma check_first_AssertionError X msg :
  check_first X = Raise (AssertionError msg) → msg = not_string_msg.
Proof.
  unfold check_first. destruct (X !! 0%nat) as [x0|]; [|discriminate].
  destruct (isinstance_str x0); [discriminate|]. by intros [= <-].
Qed.

(** C4. Shape rejection: [transform] fails its shape assertion, with the
    message that prints the shape and before anything else happens,
    exactly on the arrays that are neither 1-D nor 2-D with one column;
    on a 2-D array with one column it does what it does on the 1-D array
    of the same values. *)
Theorem transform_supported_shapes X self w :
  (transform X (self, w)
   = (Raise (AssertionError (shape_msg (shape X))), (self, w))
   ↔ supported_shape (shape X) = false) ∧
  (∀ n, shape X = [n; 1%nat] → ndarray_wf X →
     transform X (self, w) = transform (mk_ndarray [n] (data X)) (self, w)).
Proof.
  split; [split|].
  - intros Hrun. pose proof (check_shape_supported X) as Hshape.
    destruct (supported_shape (shape X)); [exfalso | done].
    destruct Hshape as [X1 Hshape].
    apply transform_AssertionError in Hrun as [?|(X1' & _ & Hfirst)];
      [congruence|].
    apply check_first_AssertionError in Hfirst.
    by apply shape_msg_not_string_msg in Hfirst.
  - apply transform_unsupported.
  - intros n Hsh Hwf. unfold transform. f_equal.
    unfold check_shape, ndim, len. rewrite Hsh. simpl.
    rewrite first_column_1.
    unfold ndarray_wf in Hwf. rewrite Hsh in Hwf. simpl in Hwf.
    rewrite take_ge by lia. done.
Qed.

(** C9, on the array [np.asarray] yields.  The string check looks at the
    first item of the array only: on a supported, non-empty array whose
    first item is not a string [transform] fails with the "not string"
    assertion before anything else happens; when the first item is a
    string the checks pass, whatever the other items are, and
    [transform] goes on to the lookup. *)
Theorem transform_checks_first_item_only X self w x0 :
  supported_shape (shape X) = true → ndarray_wf X →
  data X !! 0%nat = Some x0 →
  (isinstance_str x0 = false →
     transform X (self, w)
     = (Raise (AssertionError not_string_msg), (self, w))) ∧
  (isinstance_str x0 = true →
     check_first (data X) = Ok tt ∧
     transform X (self, w) = lookup_embeddings (data X) (self, w)).
Proof.
  intros Hsh Hwf Hx0.
  pose proof (check_shape_supported X) as Hshape. rewrite Hsh in Hshape.
  destruct Hshape as [X1 Hshape].
  destruct (check_shape_Ok _ _ Hwf Hshape) as [-> _].
  unfold transform, bind, lift, check_first. rewrite Hshape, Hx0.
  split; intros ->; done.
Qed.

(** C10. The empty batch: on the 1-D array of length 0 [transform] raises
    [IndexError] at the read of the first item; nothing is returned and
    the provider has not been called. *)
Theorem transform_empty_batch self w :
  transform (mk_ndarray [0%nat] []) (self, w) = (Raise IndexError, (self, w)).
Proof. reflexivity. Qed.

End Transform.

(** ** Construction, loading and reduction *)

Section Construction.
Context `{FastText}.

Implicit Types (self : PretrainedFastText) (w : world) (st : state).

(** [load_model], by what is on disk. *)
Lemma load_model_eq self w :
  let file_path_300 :=
    os_path.join (bin_dir self) (default_file_name (language self) 300) in
  load_model (self, w) =
  match files w !! file_path self with
  | Some (ModelFile m) => (Ok tt, (set_ft_model m self, w))
  | Some OtherFile => (Raise ValueError, (self, w))
  | None =>
      match files w !! file_path_300 with
      | Some (ModelFile m) =>
          (Ok tt, (set_ft_model (util_reduce_model m (n_components self))
                     (set_ft_model m self), w))
      | Some OtherFile => (Raise ValueError, (self, w))
      | None => (Raise (FileNotFoundError (not_found_msg file_path_300)),
                 (self, w))
      end
  end.
Proof.
  intros file_path_300.
  unfold load_model, call_util_reduce_model, bind, getattr, setattr,
    getattr_ft_model, os_path_isfile, fasttext_load_model, raise.
  cbn [fst snd]. fold file_path_300.
  destruct (files w !! file_path self) as [[m|]|] eqn:Hexact.
  - rewrite bool_decide_eq_true_2 by eauto. cbn [fst snd].
    by rewrite Hexact.
  - rewrite bool_decide_eq_true_2 by eauto. cbn [fst snd].
    by rewrite Hexact.
  - rewrite bool_decide_eq_false_2 by (by intros [? [=]]). cbn [fst snd].
    destruct (files w !! file_path_300) as [[m|]|] eqn:Hraw.
    + rewrite bool_decide_eq_true_2 by eauto. cbn [fst snd].
      by rewrite Hraw.
    + rewrite bool_decide_eq_true_2 by eauto. cbn [fst snd].
      by rewrite Hraw.
    + by rewrite bool_decide_eq_false_2 by (by intros [? [=]]).
Qed.

(** An object the constructor returned has its model, and nothing on
    disk has changed. *)
Lemma init_Ok_loaded n lang dir fname w self w' :
  __init__ n lang dir fname w = (Ok tt, (self, w')) →
  is_Some (ft_model self) ∧ w' = w.
Proof.
  unfold __init__. rewrite load_model_eq. cbv zeta.
  destruct (files w !! _) as [[m|]|]; [| discriminate |].
  - intros [= <- <-]. simpl. eauto.
  - destruct (files w !! _) as [[m|]|]; try discriminate.
    intros [= <- <-]. simpl. eauto.
Qed.

(** C5. Reduction: on an embedder with a model, [reduce_model k] returns
    exactly when [k] is below the current [n_components]; it then records
    [k] and has reduced the model to [k]; every later [transform] that
    returns gives one row per item of [X], each of [k] numbers, and when
    [k] is positive and the model had [n_components] dimensions, a later
    [transform] does return on every non-empty array of strings the
    provider answers on; otherwise the assertion fails and neither the
    attributes nor the model have changed. *)
Theorem reduce_model_iff k self w m :
  ft_model self = Some m →
  ((∃ st', reduce_model k (self, w) = (Ok tt, st')) ↔ k < n_components self) ∧
  (∀ self' w', reduce_model k (self, w) = (Ok tt, (self', w')) →
     n_components self' = k ∧
     ft_model self' = Some (util_reduce_model m k) ∧
     w' = w ∧
     (∀ X w1 out st1, transform X (self', w1) = (Ok out, st1) →
        Forall (λ row, Z.of_nat (length row) = k) out ∧
        (ndarray_wf X → length out = len X)) ∧
     (0 < k → Z.of_nat (get_dimension m) = n_components self →
      ∀ X w1,
        supported_shape (shape X) = true → ndarray_wf X → data X ≠ [] →
        Forall (embeddable (util_reduce_model m k)) (data X) →
        ∃ out st1,
          transform X (self', w1) = (Ok out, st1) ∧
          length out = len X ∧
          Forall (λ row, Z.of_nat (length row) = k) out)) ∧
  (n_components self ≤ k →
     reduce_model k (self, w)
     = (Raise (AssertionError (cannot_expand_msg (n_components self) k)),
        (self, w))).
Proof.
  intros Hm.
  assert (reduce_model k (self, w) =
    if k <? n_components self
    then (Ok tt, (set_ft_model (util_reduce_model m k)
                    (set_n_components k self), w))
    else (Raise (AssertionError (cannot_expand_msg (n_components self) k)),
          (self, w))) as Hrun.
  { unfold reduce_model, call_util_reduce_model, assert, bind, getattr,
      setattr, getattr_ft_model, ret, raise. simpl.
    destruct (k <? n_components self); simpl; [|done]. by rewrite Hm. }
  rewrite Hrun. destruct (Z.ltb_spec k (n_components self)) as [Hk|Hk].
  - split_and!.
    + split; [done|]. eauto.
    + intros self' w' [= <- <-]. split_and!; [done..| |].
      * intros X w1 out st1 Hout. split.
        -- by apply transform_row_length in Hout.
        -- intros Hwf. by eapply transform_length.
      * intros Hpos Hdim X w1 Hsh Hwf Hne Hall.
        destruct (transform_succeeds X
                    (set_ft_model (util_reduce_model m k)
                       (set_n_components k self)) w1 (util_reduce_model m k))
          as (out & st1 & Hout); [done.. | |].
        { simpl. rewrite util_reduce_model_dimension; lia. }
        exists out, st1. split_and!; [done | |].
        -- by eapply transform_length.
        -- by apply transform_row_length in Hout.
    + lia.
  - split_and!; [|done..]. split; [|lia]. by intros [st' [=]].
Qed.

(** C6, as the code has it: asked for 500 components, the constructor
    records 300 and builds the path from 500. *)
Theorem init_file_name_from_raw_n_components :
  n_components (init_attributes 500 "en" "./fastText_bins" None) = 300 ∧
  file_path (init_attributes 500 "en" "./fastText_bins" None)
  = "./fastText_bins/cc.en.500.bin".
Proof. split; reflexivity. Qed.

Lemma init_attributes_clamps n lang dir fname :
  300 ≤ n → n_components (init_attributes n lang dir fname) = 300.
Proof.
  intros Hn. unfold init_attributes. simpl.
  destruct (Z.ltb_spec n 300); [lia | done].
Qed.

(** C7. Missing model: with neither the requested file nor the
    300-dimensional file on disk the constructor raises
    [FileNotFoundError]; the message names the path of the 300-dimensional
    file and tells to download it or to load it by hand; the object has
    no model. *)
Theorem init_model_not_found n lang dir fname w :
  let self := init_attributes n lang dir fname in
  let file_path_300 := os_path.join dir (default_file_name lang 300) in
  files w !! file_path self = None →
  files w !! file_path_300 = None →
  __init__ n lang dir fname w
  = (Raise (FileNotFoundError
             ("The file " +:+ file_path_300 +:+ not_found_advice)),
     (self, w)) ∧
  ft_model self = None ∧
  is_Some (String.index 0 "Download it with self.download_model()"
             not_found_advice) ∧
  is_Some (String.index 0 "load it manually with self.load_model()"
             not_found_advice).
Proof.
  intros self file_path_300 Hexact Hraw. split_and!.
  - unfold __init__. rewrite load_model_eq. fold self. rewrite Hexact.
    cbn [bin_dir language init_attributes self]. fold file_path_300.
    by rewrite Hraw.
  - done.
  - vm_compute. eauto.
  - vm_compute. eauto.
Qed.

(** C8. Reduce on load: with the 300-dimensional file on disk and no
    50-dimensional one, the constructor asked for 50 components returns
    with the 300-dimensional model reduced to 50; no file is written, by
    the constructor or by any later [transform]; every [transform] that
    returns gives one row per item of [X], each of 50 numbers, and it
    does return, with such a matrix, on every non-empty array of strings
    the provider answers on. *)
Theorem init_reduce_on_load lang dir w m300 :
  let self :=
    mk_self 50 lang dir (os_path.join dir (default_file_name lang 50))
      (Some (util_reduce_model m300 50)) in
  files w !! os_path.join dir (default_file_name lang 50) = None →
  files w !! os_path.join dir (default_file_name lang 300)
    = Some (ModelFile m300) →
  get_dimension m300 = 300%nat →
  __init__ 50 lang dir None w = (Ok tt, (self, w)) ∧
  get_dimension (util_reduce_model m300 50) = 50%nat ∧
  (∀ X w1 r self' w2,
     transform X (self, w1) = (r, (self', w2)) →
     self' = self ∧ files w2 = files w1 ∧
     ∀ out, r = Ok out →
       Forall (λ row, length row = 50%nat) out ∧
       (ndarray_wf X → length out = len X)) ∧
  (∀ X w1,
     supported_shape (shape X) = true → ndarray_wf X → data X ≠ [] →
     Forall (embeddable (util_reduce_model m300 50)) (data X) →
     ∃ out st',
       transform X (self, w1) = (Ok out, st') ∧
       length out = len X ∧
       Forall (λ row, length row = 50%nat) out).
Proof.
  intros self Hexact Hraw Hdim.
  assert (get_dimension (util_reduce_model m300 50) = 50%nat) as Hdim50.
  { rewrite util_reduce_model_dimension; [done | lia]. }
  assert (∀ X w1 out st',
    transform X (self, w1) = (Ok out, st') →
    Forall (λ row, length row = 50%nat) out) as Hrows.
  { intros X w1 out st' Hrun.
    apply transform_row_length in Hrun. simpl in Hrun.
    eapply Forall_impl; [exact Hrun|]. simpl. lia. }
  split_and!.
  - unfold __init__. rewrite load_model_eq. simpl.
    by rewrite Hexact, Hraw.
  - done.
  - intros X w1 r self' w2 Hrun.
    destruct (transform_frame _ _ _ _ _ _ Hrun) as [-> [l ->]].
    split_and!; [done..|]. intros out ->. split.
    + by eapply Hrows.
    + intros Hwf. by eapply transform_length.
  - intros X w1 Hsh Hwf Hne Hall.
    destruct (transform_succeeds X self w1 (util_reduce_model m300 50))
      as (out & st' & Hrun); [done.. | |].
    { simpl. lia. }
    exists out, st'. split_and!; [done | |].
    + by eapply transform_length.
    + by eapply Hrows.
Qed.

End Construction.

(** ** More on [transform] *)

Section TransformOutcomes.
Context `{FastText}.

Implicit Types (self : PretrainedFastText) (w : world) (st : state).

Lemma is_str_isinstance x : is_str x → isinstance_str x = true.
Proof. by intros [s ->]. Qed.

Lemma embeddable_is_str m x : embeddable m x → is_str x.
Proof. intros (s & v & -> & _). by eexists. Qed.

(** The calls a loop made, however it ended, are the first items. *)
Lemma embed_unique_calls_prefix items out self w r self' w' :
  embed_unique items out (self, w) = (r, (self', w')) →
  ∃ l, w' = called l w ∧ l `prefix_of` items.*2.
Proof.
  revert out w. induction items as [|[idx x] items IH]; simpl; intros out w.
  - intros Hrun. unfold ret in Hrun. simplify_eq.
    exists []. by rewrite called_nil.
  - intros Hrun.
    apply bind_inv in Hrun as [(e & Hm & _)|(m & st1 & Hm & Hrun)];
      unfold getattr_ft_model in Hm; simpl in Hm;
      destruct (ft_model self); simplify_eq.
    { exists []. rewrite called_nil. split; [done | apply prefix_nil]. }
    apply bind_inv in Hrun as [(e & Hv & _)|(v & st1 & Hv & Hrun)];
      apply call_get_sentence_vector_inv in Hv as [Hst _]; simplify_eq.
    { exists [x]. split; [done | apply prefix_cons, prefix_nil]. }
    apply bind_inv in Hrun as [(e & Hset & _)|(out1 & st1 & Hset & Hrun)];
      apply lift_inv in Hset as [_ ?]; simplify_eq.
    { exists [x]. split; [done | apply prefix_cons, prefix_nil]. }
    apply IH in Hrun as (l & -> & Hl).
    exists (x :: l). rewrite called_app. split; [done | by apply prefix_cons].
Qed.

(** On a well-formed, supported, non-empty array of strings the checks
    pass and [np.unique] returns at least one value. *)
Lemma strings_reach_lookup X :
  supported_shape (shape X) = true → ndarray_wf X →
  data X ≠ [] → Forall is_str (data X) →
  (∀ st, transform X st = lookup_embeddings (data X) st) ∧
  ∃ x unq lookup,
    x ∈ data X ∧ np_unique (data X) = Ok (x :: unq, lookup).
Proof.
  intros Hsh Hwf Hne Hall.
  pose proof (check_shape_supported X) as Hshape. rewrite Hsh in Hshape.
  destruct Hshape as [X1 Hshape].
  destruct (check_shape_Ok _ _ Hwf Hshape) as [-> _].
  split.
  - intros st. unfold transform, bind, lift. rewrite Hshape.
    unfold check_first. destruct (data X) as [|x0 d]; [done|]. simpl.
    apply Forall_cons in Hall as [Hx0 _]. by rewrite is_str_isinstance.
  - destruct (np_sort_strings _ Hall) as [sorted Hsorted].
    assert (∃ unq lookup, np_unique (data X) = Ok (unq, lookup))
      as (unq & lookup & Hunq).
    { unfold np_unique. rewrite Hsorted. simpl. eauto. }
    destruct (np_unique_Ok _ _ _ Hunq) as (_ & Hmem & _ & _).
    destruct unq as [|x unq].
    + destruct (data X) as [|x0 d]; [done|].
      assert (x0 ∈ []) as Hx0 by (apply Hmem; left). inversion Hx0.
    + exists x, unq, lookup. split; [|done]. apply Hmem. left.
Qed.

(** X1. In every outcome, [transform] leaves the attributes and the files
    as they were, and the calls it made to the provider are values of [X],
    no value twice: a call that raises has not called more than a call
    that returns. *)
Theorem transform_never_calls_twice X self w r self' w' :
  ndarray_wf X →
  transform X (self, w) = (r, (self', w')) →
  self' = self ∧ files w' = files w ∧
  ∃ l, calls w' = calls w ++ l ∧ NoDup l ∧ ∀ x, x ∈ l → x ∈ data X.
Proof.
  intros Hwf Hrun.
  assert (self = self ∧ files w = files w ∧
    ∃ l, calls w = calls w ++ l ∧ NoDup l ∧ ∀ x, x ∈ l → x ∈ data X)
    as Hnone.
  { split_and!; [done..|]. exists []. rewrite app_nil_r.
    split_and!; [done | constructor |]. intros x Hx. inversion Hx. }
  unfold transform, lookup_embeddings in Hrun.
  apply bind_inv in Hrun as [(e & Hc & _)|(X1 & st1 & Hc & Hrun)];
    apply lift_inv in Hc as [Hshape ?]; simplify_eq; [done|].
  symmetry in Hshape. destruct (check_shape_Ok _ _ Hwf Hshape) as [-> _].
  apply bind_inv in Hrun as [(e & Hc & _)|(? & st1 & Hc & Hrun)];
    apply lift_inv in Hc as [_ ?]; simplify_eq; [done|].
  apply bind_inv in Hrun as [(e & Hc & _)|([unq lookup] & st1 & Hc & Hrun)];
    apply lift_inv in Hc as [Hunq ?]; simplify_eq; [done|].
  symmetry in Hunq. destruct (np_unique_Ok _ _ _ Hunq) as (Hnodup & Hmem & _).
  apply bind_inv in Hrun as [(e & Hc & _)|(n & st1 & Hc & Hrun)];
    unfold getattr in Hc; simplify_eq.
  apply bind_inv in Hrun as [(e & Hc & _)|(out0 & st1 & Hc & Hrun)];
    apply lift_inv in Hc as [_ ?]; simplify_eq; [done|].
  assert (∀ self1 w1 l,
    self1 = self → w1 = called l w → l `prefix_of` unq →
    self1 = self ∧ files w1 = files w ∧
    ∃ l, calls w1 = calls w ++ l ∧ NoDup l ∧ ∀ x, x ∈ l → x ∈ data X)
    as Hsome.
  { intros self1 w1 l -> -> [k Hk]. split_and!; [done..|]. exists l.
    rewrite Hk in Hnodup. apply NoDup_app in Hnodup as (? & _ & _).
    split_and!; [done..|]. intros y Hy. apply Hmem. rewrite Hk.
    apply elem_of_app. by left. }
  apply bind_inv in Hrun as [(e & Hc & _)|(out1 & [self1 w1] & Hc & Hrun)].
  - pose proof (embed_unique_frame _ _ _ _ _ _ _ Hc) as [-> _].
    apply embed_unique_calls_prefix in Hc as (l & -> & Hl).
    unfold enumerate in Hl. rewrite snd_zip in Hl by (by rewrite length_seq).
    by eapply Hsome.
  - pose proof (embed_unique_frame _ _ _ _ _ _ _ Hc) as [-> _].
    apply embed_unique_calls_prefix in Hc as (l & -> & Hl).
    unfold enumerate in Hl. rewrite snd_zip in Hl by (by rewrite length_seq).
    apply lift_inv in Hrun as [_ ?]; simplify_eq. by eapply Hsome.
Qed.

(** X2. The row of a value does not depend on the batch it comes in: two
    calls of [transform] on the same embedder that return give the same
    row wherever the two arrays hold the same value. *)
Theorem transform_row_depends_on_value_only X X' self w w' out out' st st'
    i j x :
  ndarray_wf X → ndarray_wf X' →
  transform X (self, w) = (Ok out, st) →
  transform X' (self, w') = (Ok out', st') →
  data X !! i = Some x → data X' !! j = Some x →
  ∃ row, out !! i = Some row ∧ out' !! j = Some row.
Proof.
  intros Hwf Hwf' Hrun Hrun' Hi Hj.
  apply transform_Ok in Hrun
    as (X1 & _ & _ & m & Hshape & _ & _ & Hm & _ & _ & _ & Hrows).
  apply transform_Ok in Hrun'
    as (X1' & _ & _ & m' & Hshape' & _ & _ & Hm' & _ & _ & _ & Hrows').
  destruct (check_shape_Ok _ _ Hwf Hshape) as [-> _].
  destruct (check_shape_Ok _ _ Hwf' Hshape') as [-> _].
  destruct (Hrows i x Hi) as (s & v & r & -> & Hv & Hr & Hout).
  destruct (Hrows' j _ Hj) as (s' & v' & r' & [= <-] & Hv' & Hr' & Hout').
  exists r. split; [done|]. congruence.
Qed.

(** X3. A string in front does not save a mixed array: when the first
    item is a string and some item is not, [transform] raises [TypeError]
    in [np.unique], before any call to the provider. *)
Theorem transform_mixed_raises_TypeError X self w s0 x :
  supported_shape (shape X) = true → ndarray_wf X →
  data X !! 0%nat = Some (PyStr s0) →
  x ∈ data X → isinstance_str x = false →
  transform X (self, w) = (Raise TypeError, (self, w)).
Proof.
  intros Hsh Hwf Hx0 Hx Hnot.
  pose proof (check_shape_supported X) as Hshape. rewrite Hsh in Hshape.
  destruct Hshape as [X1 Hshape].
  destruct (check_shape_Ok _ _ Hwf Hshape) as [-> _].
  assert (check_first (data X) = Ok tt) as Hfirst.
  { unfold check_first. by rewrite Hx0. }
  assert (np_unique (data X) = Raise TypeError) as Hunq.
  { destruct (np_unique (data X)) as [r|e] eqn:Hunq.
    - pose proof (np_unique_Ok_strings _ _ Hfirst Hunq) as Hall.
      rewrite Forall_forall in Hall.
      apply Hall, is_str_isinstance in Hx. congruence.
    - by apply np_unique_Raise in Hunq as ->. }
  unfold transform, lookup_embeddings, bind, lift.
  by rewrite Hshape, Hfirst, Hunq.
Qed.

(** X4. A negative [n_components] (the constructor takes any number below
    300 as it is) makes [transform] raise [ValueError] when it allocates
    the matrix: valid input or model play no part and the provider is not
    called. *)
Theorem transform_negative_n_components X self w :
  supported_shape (shape X) = true → ndarray_wf X →
  data X ≠ [] → Forall is_str (data X) →
  n_components self < 0 →
  transform X (self, w) = (Raise ValueError, (self, w)).
Proof.
  intros Hsh Hwf Hne Hall Hn.
  destruct (strings_reach_lookup X Hsh Hwf Hne Hall)
    as (-> & x & unq & lookup & _ & Hunq).
  unfold lookup_embeddings, bind, lift, getattr. rewrite Hunq. simpl.
  unfold np_empty. destruct (Z.ltb_spec (n_components self) 0); [done | lia].
Qed.

(** X5. On an object without a model [transform] still checks its input
    first; on valid input it raises [AttributeError] at the first read of
    [self.ft_model], with no call made. *)
Theorem transform_without_model X self w :
  supported_shape (shape X) = true → ndarray_wf X →
  data X ≠ [] → Forall is_str (data X) →
  0 ≤ n_components self → ft_model self = None →
  transform X (self, w) = (Raise AttributeError, (self, w)).
Proof.
  intros Hsh Hwf Hne Hall Hn Hm.
  destruct (strings_reach_lookup X Hsh Hwf Hne Hall)
    as (-> & x & unq & lookup & _ & Hunq).
  unfold lookup_embeddings, bind, lift, getattr. rewrite Hunq. simpl.
  unfold np_empty. destruct (Z.ltb_spec (n_components self) 0); [lia|].
  unfold bind, getattr_ft_model. simpl. by rewrite Hm.
Qed.

(** X6. With a non-negative [n_components], a model whose dimension is
    neither [n_components] nor 1 makes every [transform] of valid input
    raise [ValueError] at the first row it stores, after a single call to
    the provider.  (A negative [n_components] raises earlier, with no
    call: X4.) *)
Theorem transform_dimension_mismatch X self w m :
  supported_shape (shape X) = true → ndarray_wf X →
  data X ≠ [] → Forall (embeddable m) (data X) →
  ft_model self = Some m → 0 ≤ n_components self →
  Z.of_nat (get_dimension m) ≠ n_components self →
  get_dimension m ≠ 1%nat →
  ∃ x, x ∈ data X ∧
       transform X (self, w) = (Raise ValueError, (self, called [x] w)).
Proof.
  intros Hsh Hwf Hne Hall Hm Hn Hdim Hone.
  assert (Forall is_str (data X)) as Hstr.
  { eapply Forall_impl; [exact Hall|]. apply embeddable_is_str. }
  destruct (strings_reach_lookup X Hsh Hwf Hne Hstr)
    as (-> & x & unq & lookup & Hx & Hunq).
  exists x. split; [done|].
  rewrite Forall_forall in Hall.
  destruct (Hall x Hx) as (s & v & -> & Hv).
  pose proof (get_sentence_vector_length _ _ _ Hv) as Hlen.
  unfold lookup_embeddings, bind, lift, getattr. rewrite Hunq. simpl.
  unfold np_empty. destruct (Z.ltb_spec (n_components self) 0); [lia|].
  unfold bind, getattr_ft_model. simpl. rewrite Hm.
  unfold call_get_sentence_vector. simpl. rewrite Hv.
  unfold lift, setitem_row. simpl. unfold broadcast_to.
  rewrite length_fmap, length_seq.
  rewrite bool_decide_eq_false_2 by lia.
  destruct v as [|a [|b v]]; simpl in Hlen; [done | lia | done].
Qed.

(** X7. On an embedder whose model has [n_components] dimensions,
    [transform] of a supported, non-empty array returns exactly when every
    item is a string the provider answers on. *)
Theorem transform_returns_iff X self w m :
  supported_shape (shape X) = true → ndarray_wf X → data X ≠ [] →
  ft_model self = Some m →
  Z.of_nat (get_dimension m) = n_components self →
  (∃ out st', transform X (self, w) = (Ok out, st')) ↔
  Forall (embeddable m) (data X).
Proof.
  intros Hsh Hwf Hne Hm Hdim. split.
  - intros (out & st' & Hrun).
    apply transform_Ok in Hrun
      as (X1 & _ & _ & m' & Hshape & _ & _ & Hm' & _ & _ & _ & Hrows).
    destruct (check_shape_Ok _ _ Hwf Hshape) as [-> _].
    assert (m' = m) as -> by congruence.
    apply Forall_lookup. intros i x Hi.
    destruct (Hrows i x Hi) as (s & v & _ & -> & Hv & _). by exists s, v.
  - intros Hall. by eapply transform_succeeds.
Qed.

End TransformOutcomes.

(** ** More on construction, loading and reduction *)

Section ConstructionOutcomes.
Context `{FastText}.

Implicit Types (self : PretrainedFastText) (w : world) (st : state).

(** X8. What decides the constructor: it returns exactly when the
    requested file holds a model, or is missing while the 300-dimensional
    file holds one (a requested file that is no model is not made up for
    by the 300-dimensional one).  However it ends, nothing on disk has
    changed, no call was made to the provider, and the attributes are the
    ones it set at first, [n_components] being the smaller of the argument
    and 300. *)
Theorem init_returns_iff n lang dir fname w :
  let self0 := init_attributes n lang dir fname in
  let file_path_300 := os_path.join dir (default_file_name lang 300) in
  ((∃ st, __init__ n lang dir fname w = (Ok tt, st)) ↔
   (∃ m, files w !! file_path self0 = Some (ModelFile m)) ∨
   (files w !! file_path self0 = None ∧
    ∃ m, files w !! file_path_300 = Some (ModelFile m))) ∧
  ∀ r self w', __init__ n lang dir fname w = (r, (self, w')) →
    w' = w ∧ n_components self = Z.min n 300 ∧
    language self = lang ∧ bin_dir self = dir ∧
    file_path self = file_path self0.
Proof.
  intros self0 file_path_300.
  assert (n_components self0 = Z.min n 300) as Hmin.
  { unfold self0, init_attributes. simpl.
    destruct (Z.ltb_spec n 300); lia. }
  unfold __init__. rewrite load_model_eq. fold self0.
  change (os_path.join (bin_dir self0) (default_file_name (language self0) 300))
    with file_path_300. cbv zeta.
  destruct (files w !! file_path self0) as [[m|]|] eqn:Hexact.
  - split.
    + split; [eauto | intros _; eauto].
    + by intros r self w' [= <- <- <-].
  - split.
    + split; [by intros [st [=]] | intros [[m [=]]|[[=] _]]].
    + by intros r self w' [= <- <- <-].
  - destruct (files w !! file_path_300) as [[m|]|] eqn:Hraw.
    + split.
      * split; [eauto | intros _; eauto].
      * by intros r self w' [= <- <- <-].
    + split.
      * split; [by intros [st [=]] | intros [[m [=]]|[_ [m [=]]]]].
      * by intros r self w' [= <- <- <-].
    + split.
      * split; [by intros [st [=]] | intros [[m [=]]|[_ [m [=]]]]].
      * by intros r self w' [= <- <- <-].
Qed.

(** X9. The first match wins: when the requested file holds a model, the
    constructor takes it as it is, with no reduction, whatever its
    dimension, whatever [n_components] and whatever the 300-dimensional
    file. *)
Theorem init_loads_requested_file_as_is n lang dir fname w m :
  let self0 := init_attributes n lang dir fname in
  files w !! file_path self0 = Some (ModelFile m) →
  __init__ n lang dir fname w = (Ok tt, (set_ft_model m self0, w)).
Proof.
  intros self0 Hexact. unfold __init__. rewrite load_model_eq. fold self0.
  by rewrite Hexact.
Qed.


(** X11. The check of [fit] cannot fail on an object the constructor
    returned: [fit] gives back the object itself and changes nothing. *)
Theorem fit_after_init n lang dir fname w self w' :
  __init__ n lang dir fname w = (Ok tt, (self, w')) →
  fit (self, w') = (Ok self, (self, w')).
Proof.
  intros Hinit. apply init_Ok_loaded in Hinit as [[m Hm] _].
  unfold fit, bind, getattr, assert, ret. simpl. by rewrite Hm.
Qed.

(** X12. Reduction keeps model and record in step: on an embedder whose
    model has [n_components] dimensions, [reduce_model k] with
    [0 < k < n_components] leaves a model of [k] dimensions next to
    [n_components = k]. *)
Theorem reduce_model_keeps_dimension k self w m :
  ft_model self = Some m →
  Z.of_nat (get_dimension m) = n_components self →
  0 < k < n_components self →
  ∃ self' m',
    reduce_model k (self, w) = (Ok tt, (self', w)) ∧
    ft_model self' = Some m' ∧ n_components self' = k ∧
    Z.of_nat (get_dimension m') = n_components self'.
Proof.
  intros Hm Hdim Hk.
  exists (set_ft_model (util_reduce_model m k) (set_n_components k self)),
         (util_reduce_model m k).
  split_and!; [| done | done |].
  - unfold reduce_model, call_util_reduce_model, assert, bind, getattr,
      setattr, getattr_ft_model, ret. simpl.
    destruct (Z.ltb_spec k (n_components self)); [|lia]. simpl.
    by rewrite Hm.
  - simpl. rewrite util_reduce_model_dimension; lia.
Qed.

(** X13. However [reduce_model] ends, [n_components] has not grown, and
    the other attributes of the configuration, the files and the record
    of calls are as before. *)
Theorem reduce_model_never_grows k self w r self' w' :
  reduce_model k (self, w) = (r, (self', w')) →
  n_components self' ≤ n_components self ∧
  language self' = language self ∧ bin_dir self' = bin_dir self ∧
  file_path self' = file_path self ∧ w' = w.
Proof.
  unfold reduce_model, call_util_reduce_model, assert, bind, getattr,
    setattr, getattr_ft_model, ret, raise. simpl.
  destruct (Z.ltb_spec k (n_components self)); simpl.
  - destruct (ft_model self); simpl; intros [= <- <- <-]; simpl;
      split_and!; (done || lia).
  - intros [= <- <- <-]. split_and!; (done || lia).
Qed.

(** X14. Two reductions in a row: after [reduce_model k1] has returned,
    [reduce_model k2] returns exactly for [k2 < k1] and then holds the
    model reduced twice; for [k2 >= k1], the same size included, it fails
    its assertion and keeps what the first reduction left. *)
Theorem reduce_model_twice k1 k2 self w m st1 :
  ft_model self = Some m →
  reduce_model k1 (self, w) = (Ok tt, st1) →
  (k2 < k1 →
     reduce_model k2 st1
     = (Ok tt,
        (mk_self k2 (language self) (bin_dir self) (file_path self)
           (Some (util_reduce_model (util_reduce_model m k1) k2)), w))) ∧
  (k1 ≤ k2 →
     reduce_model k2 st1
     = (Raise (AssertionError (cannot_expand_msg k1 k2)), st1)).
Proof.
  intros Hm.
  unfold reduce_model, call_util_reduce_model, assert, bind, getattr,
    setattr, getattr_ft_model, ret, raise. simpl.
  destruct (Z.ltb_spec k1 (n_components self)); simpl; [|discriminate].
  rewrite Hm. intros [= <-]. simpl. split; intros Hk.
  - destruct (Z.ltb_spec k2 k1); [done | lia].
  - destruct (Z.ltb_spec k2 k1); [lia | done].
Qed.

(** X15. Loading again changes nothing: after [load_model] has returned, a
    second [load_model] over the same files returns in the very same
    state. *)
Theorem load_model_idempotent st st1 :
  load_model st = (Ok tt, st1) → load_model st1 = (Ok tt, st1).
Proof.
  destruct st as [self w]. rewrite load_model_eq. cbv zeta.
  destruct (files w !! file_path self) as [[m|]|] eqn:Hexact;
    [| discriminate |].
  - intros [= <-]. rewrite load_model_eq. simpl. by rewrite Hexact.
  - destruct (files w !! os_path.join _ _) as [[m|]|] eqn:Hraw;
      [| discriminate | discriminate].
    intros [= <-]. rewrite load_model_eq. simpl. by rewrite Hexact, Hraw.
Qed.

End ConstructionOutcomes.

(** ** Saving *)

Section Saving.
Context `{FastText}.

Implicit Types (self : PretrainedFastText) (p : process).

Lemma join_absolute a b :
  os_path.startswith_sep b = true → os_path.join a b = b.
Proof. intros Hb. unfold os_path.join. by rewrite Hb. Qed.

Lemma canonical_absolute q : os_path.startswith_sep (canonical q) = true.
Proof. reflexivity. Qed.

Lemma canonical_not_empty q : canonical q ≠ "".
Proof. discriminate. Qed.

Lemma lookup_write_file_here target f (d : gmap string file) :
  write_file target f d !! target = Some f.
Proof. apply lookup_insert_eq. Qed.

Lemma lookup_write_file_alias target f (d : gmap string file) q :
  canonical q = canonical target → is_Some (d !! q) →
  write_file target f d !! q = Some f.
Proof.
  intros Hq [old Hold]. unfold write_file.
  destruct (decide (target = q)) as [->|Hne]; [apply lookup_insert_eq|].
  rewrite lookup_insert_ne by done. rewrite map_lookup_imap, Hold. simpl.
  by rewrite bool_decide_eq_true_2.
Qed.

Lemma lookup_write_file_other target f (d : gmap string file) q :
  canonical q ≠ canonical target →
  write_file target f d !! q = d !! q.
Proof.
  intros Hq. unfold write_file.
  rewrite lookup_insert_ne by (by intros ->).
  rewrite map_lookup_imap. destruct (d !! q) as [old|]; simpl; [|done].
  by rewrite bool_decide_eq_false_2.
Qed.

(** The first two steps of [save_model], when they go through. *)
Lemma save_model_written fname self p m :
  bin_dir self ≠ "" →
  chdir_errno p (os_path.join (workdir p) (bin_dir self)) = None →
  ft_model self = Some m →
  writable p (saved_path fname self p) = true →
  save_model fname self p
  = os_chdir (os_getcwd p)
      (mk_process
         (write_file (saved_path fname self p) (ModelFile m) (disk p))
         (os_path.join (workdir p) (bin_dir self))
         (chdir_errno p) (writable p)).
Proof.
  intros Hdir Hthere Hm Hw. unfold save_model, os_chdir at 1.
  rewrite bool_decide_eq_false_2 by done. rewrite Hthere, Hm.
  unfold ft_save_model. cbn [workdir writable disk chdir_errno].
  change (os_path.join (os_path.join (workdir p) (bin_dir self))
            match fname with
            | Some f => f
            | None => default_file_name (language self) (n_components self)
            end) with (saved_path fname self p).
  by rewrite Hw.
Qed.


(** X17. [save_model] does not undo its change of directory when it
    fails: if [bin_dir] cannot be entered nothing has happened, but if the
    object has no model or the file cannot be written, the call raises
    and leaves the process inside [bin_dir] ([os.getcwd()] is then the
    canonical path of [bin_dir]), with the files as they were. *)
Theorem save_model_failure_leaves_cwd fname self p :
  let there := os_path.join (workdir p) (bin_dir self) in
  let stranded := mk_process (disk p) there (chdir_errno p) (writable p) in
  os_getcwd stranded = canonical there ∧
  (∀ e, bin_dir self ≠ "" → chdir_errno p there = Some e →
     save_model fname self p = (Failed (OSError e), p)) ∧
  (bin_dir self ≠ "" → chdir_errno p there = None → ft_model self = None →
     save_model fname self p = (Failed (Error AttributeError), stranded)) ∧
  (bin_dir self ≠ "" → chdir_errno p there = None →
     is_Some (ft_model self) → writable p (saved_path fname self p) = false →
     save_model fname self p = (Failed (Error ValueError), stranded)).
Proof.
  intros there stranded. split_and!.
  - done.
  - intros e Hdir Hthere. unfold save_model, os_chdir.
    rewrite bool_decide_eq_false_2 by done. fold there. by rewrite Hthere.
  - intros Hdir Hthere Hm. unfold save_model, os_chdir.
    rewrite bool_decide_eq_false_2 by done. fold there.
    by rewrite Hthere, Hm.
  - intros Hdir Hthere [m Hm] Hw. unfold save_model, os_chdir at 1.
    rewrite bool_decide_eq_false_2 by done. fold there.
    rewrite Hthere, Hm. unfold ft_save_model.
    cbn [workdir writable disk chdir_errno].
    fold (saved_name fname self). unfold saved_path in Hw. fold there in Hw.
    by rewrite Hw.
Qed.

(** X18. However [save_model] ends, every path that does not reach the
    place it writes at reaches what it reached before, and what the
    system allows is as before. *)
Theorem save_model_touches_one_file fname self p r p' :
  save_model fname self p = (r, p') →
  (∀ q, canonical q ≠ canonical (saved_path fname self p) →
        disk p' !! q = disk p !! q) ∧
  chdir_errno p' = chdir_errno p ∧ writable p' = writable p.
Proof.
  unfold save_model, os_chdir at 1.
  case_bool_decide; [by intros [= <- <-]|].
  destruct (chdir_errno p _) as [e|]; [by intros [= <- <-]|].
  destruct (ft_model self) as [m|]; [|by intros [= <- <-]].
  unfold ft_save_model. cbn [workdir writable disk chdir_errno].
  change (os_path.join (os_path.join (workdir p) (bin_dir self))
            match fname with
            | Some f => f
            | None => default_file_name (language self) (n_components self)
            end) with (saved_path fname self p).
  destruct (writable p _); [|by intros [= <- <-]].
  unfold os_chdir. cbn [workdir writable disk chdir_errno].
  case_bool_decide.
  - intros [= <- <-]. simpl. split_and!; [|done..].
    intros q Hq. by apply lookup_write_file_other.
  - destruct (chdir_errno p _); intros [= <- <-]; simpl;
      (split_and!; [|done..]); intros q Hq; by apply lookup_write_file_other.
Qed.

(** X19. Save, then construct: after [save_model()] has returned on an
    embedder whose [bin_dir] is an absolute path, the constructor asked
    for the same language, directory and [n_components] finds the saved
    file and loads the saved model as it is, without the 300-dimensional
    file and without a reduction. *)
Theorem save_then_init_round_trip self p p' m cs :
  os_path.startswith_sep (bin_dir self) = true →
  ft_model self = Some m → n_components self ≤ 300 →
  save_model None self p = (Returned tt, p') →
  __init__ (n_components self) (language self) (bin_dir self) None
    (world_of p' cs)
  = (Ok tt,
     (mk_self (n_components self) (language self) (bin_dir self)
        (os_path.join (bin_dir self)
           (default_file_name (language self) (n_components self)))
        (Some m),
      world_of p' cs)).
Proof.
  intros Habs Hm Hn Hsave.
  assert (disk p' !! os_path.join (bin_dir self)
            (default_file_name (language self) (n_components self))
          = Some (ModelFile m)) as Hfile.
  { revert Hsave. unfold save_model, os_chdir at 1.
    case_bool_decide; [discriminate|].
    rewrite (join_absolute _ (bin_dir self)) by done.
    destruct (chdir_errno p _) as [e|]; [discriminate|]. rewrite Hm.
    unfold ft_save_model. cbn [workdir writable disk chdir_errno].
    destruct (writable p _); [|discriminate].
    unfold os_chdir. cbn [workdir writable disk chdir_errno].
    case_bool_decide; [discriminate|].
    destruct (chdir_errno p _); [discriminate|].
    intros [= <-]. simpl. apply lookup_write_file_here. }
  unfold __init__. rewrite load_model_eq. cbv zeta.
  unfold world_of. cbn [files file_path init_attributes]. rewrite Hfile.
  unfold set_ft_model, init_attributes. simpl.
  destruct (Z.ltb_spec (n_components self) 300) as [Hlt|Hge]; [done|].
  by replace (n_components self) with 300 by lia.
Qed.

End Saving.

(** ** The class at work on the sample provider *)

Section Runs.
Import Sample.



Lemma transform_shape_witness :
  length cat_dog_cat_rows = len cat_dog_cat ∧
  Forall (λ row, Z.of_nat (length row) = 3) cat_dog_cat_rows.
Proof.
  refine (transform_shape cat_dog_cat embedder3 quiet cat_dog_cat_rows
            (embedder3, called [PyStr "cat"; PyStr "dog"] quiet) _ _);
    reflexivity.
Defined.

Lemma transform_supported_shapes_witness :
  transform five_by_two (embedder3, quiet)
  = (Raise (AssertionError
              "ERROR:        shape (5, 2) of input array is not supported."),
     (embedder3, quiet)) ∧
  transform five_by_one (embedder3, quiet) = transform five (embedder3, quiet).
Proof.
  split.
  - apply (proj2 (proj1 (transform_supported_shapes five_by_two embedder3 quiet))).
    reflexivity.
  - apply (proj2 (transform_supported_shapes five_by_one embedder3 quiet) 5%nat);
      reflexivity.
Defined.

Lemma transform_checks_first_item_only_witness :
  transform int_then_str (embedder3, quiet)
  = (Raise (AssertionError "ERROR: Input data is not string."),
     (embedder3, quiet)) ∧
  check_first (data str_then_int) = Ok tt ∧
  transform str_then_int (embedder3, quiet)
  = lookup_embeddings (data str_then_int) (embedder3, quiet).
Proof.
  split.
  - apply (proj1 (transform_checks_first_item_only int_then_str embedder3
                    quiet (PyInt 1) eq_refl eq_refl eq_refl)).
    reflexivity.
  - apply (proj2 (transform_checks_first_item_only str_then_int embedder3
                    quiet (PyStr "a") eq_refl eq_refl eq_refl)).
    reflexivity.
Defined.

(** Why the model must have [n_components] dimensions for the rows to be
    the provider's vectors: numpy spreads a vector of one number over the
    row it is stored in. *)
Example transform_broadcasts_one_number :
  get_sentence_vector 1%nat "cat" = Ok [312] ∧
  fst (transform cat_dog_cat (embedder3_over_1, quiet))
  = Ok [[312; 312; 312]; [314; 314; 314]; [312; 312; 312]].
Proof. split; reflexivity. Qed.

(** The check is on the array, not on what the caller passed: numpy turns
    the list [[1, 'a']] into the array of the strings ['1'] and ['a'], so
    a list whose first item is no string passes the check and is
    embedded. *)
Lemma transform_list_of_int_then_str_is_embedded :
  ¬ (∀ (l : list pyval) (x0 : pyval) (self : PretrainedFastText) (w : world),
       l !! 0%nat = Some x0 → isinstance_str x0 = false →
       fst (transform (np_asarray l) (self, w))
       = Raise (AssertionError not_string_msg)).
Proof.
  intros Hclaim.
  specialize (Hclaim [PyInt 1; PyStr "a"] (PyInt 1) embedder3 quiet
                eq_refl eq_refl).
  assert (fst (transform (np_asarray [PyInt 1; PyStr "a"]) (embedder3, quiet))
          = Ok [[49; 50; 51]; [97; 98; 99]]) as Hrun by reflexivity.
  rewrite Hrun in Hclaim. discriminate Hclaim.
Qed.

(** Past the checks, the mixed array fails in [np.unique]; no call is
    made. *)
Example transform_str_then_int :
  transform str_then_int (embedder3, quiet) = (Raise TypeError, (embedder3, quiet)).
Proof. reflexivity. Qed.

Lemma reduce_model_iff_witness :
  (∃ st', reduce_model 2 (embedder3, quiet) = (Ok tt, st')) ∧
  reduce_model 3 (embedder3, quiet)
  = (Raise (AssertionError
              "Cannot expand embedding            size from 3 to 3."),
     (embedder3, quiet)).
Proof.
  split.
  - apply (proj2 (proj1 (reduce_model_iff 2 embedder3 quiet 3%nat eq_refl))).
    reflexivity.
  - apply (proj2 (proj2 (reduce_model_iff 3 embedder3 quiet 3%nat eq_refl))).
    discriminate.
Defined.

(** After [reduce_model 2] the rows have 2 numbers. *)
Example transform_after_reduce :
  ∃ st,
    reduce_model 2 (embedder3, quiet) = (Ok tt, st) ∧
    fst (transform cat_dog_cat st) = Ok [[312; 315]; [314; 317]; [312; 315]].
Proof.
  exists (embedder2, quiet).
  split; reflexivity.
Qed.

Lemma init_model_not_found_witness :
  fst (__init__ 50 "en" "bins" None quiet)
  = Raise (FileNotFoundError
             ("The file bins/cc.en.300.bin" +:+ not_found_advice)).
Proof.
  refine (f_equal fst (proj1 (init_model_not_found 50 "en" "bins" None quiet
                                _ _)));
    reflexivity.
Defined.

Lemma init_reduce_on_load_witness :
  ∃ self,
    __init__ 50 "en" "bins" None only_300 = (Ok tt, (self, only_300)) ∧
    n_components self = 50 ∧ ft_model self = Some 50%nat ∧
    ∃ out st',
      transform cat_dog_cat (self, only_300) = (Ok out, st') ∧
      length out = len cat_dog_cat ∧
      Forall (λ row, length row = 50%nat) out.
Proof.
  assert (files only_300 !! os_path.join "bins" (default_file_name "en" 50)
          = None) as Hexact by reflexivity.
  assert (files only_300 !! os_path.join "bins" (default_file_name "en" 300)
          = Some (ModelFile 300%nat)) as Hraw by reflexivity.
  destruct (init_reduce_on_load "en" "bins" only_300 300%nat Hexact Hraw
              eq_refl) as (Hinit & _ & _ & Hruns).
  eexists. split; [exact Hinit|]. split; [reflexivity|].
  split; [reflexivity|].
  apply Hruns; [reflexivity | reflexivity | discriminate |].
  repeat constructor; eexists _, _; split; reflexivity.
Defined.

(** Asked for 500 components where a file named for 500 exists, the
    constructor records 300 and loads the 500-dimensional model; every
    [transform] then fails on the first row it stores. *)
Example init_500_loads_the_500_file :
  ∃ self,
    __init__ 500 "en" "bins" None with_500 = (Ok tt, (self, with_500)) ∧
    n_components self = 300 ∧ ft_model self = Some 500%nat ∧
    fst (transform cat_dog_cat (self, with_500)) = Raise ValueError.
Proof.
  exists embedder_500.
  split_and!; reflexivity.
Qed.

End Runs.

(** ** More runs on the sample provider *)

Section MoreRuns.
Import Sample.

Lemma transform_never_calls_twice_witness :
  embedder3 = embedder3 ∧
  files (called [PyStr two_lines] quiet) = files quiet ∧
  ∃ l, calls (called [PyStr two_lines] quiet) = calls quiet ++ l ∧
       NoDup l ∧ ∀ x, x ∈ l → x ∈ data dog_and_two_lines.
Proof.
  refine (transform_never_calls_twice dog_and_two_lines embedder3 quiet
            (Raise ValueError) embedder3 (called [PyStr two_lines] quiet)
            _ _);
    reflexivity.
Defined.

Lemma transform_row_depends_on_value_only_witness :
  ∃ row, cat_dog_cat_rows !! 1%nat = Some row ∧
         [[314; 317; 320]] !! 0%nat = Some row.
Proof.
  refine (transform_row_depends_on_value_only cat_dog_cat dog_only embedder3
            quiet quiet cat_dog_cat_rows [[314; 317; 320]]
            (embedder3, called [PyStr "cat"; PyStr "dog"] quiet)
            (embedder3, called [PyStr "dog"] quiet)
            1%nat 0%nat (PyStr "dog") _ _ _ _ _ _);
    reflexivity.
Defined.

Lemma transform_mixed_raises_TypeError_witness :
  transform str_then_int (embedder3, quiet)
  = (Raise TypeError, (embedder3, quiet)).
Proof.
  refine (transform_mixed_raises_TypeError str_then_int embedder3 quiet
            "a" (PyInt 1) _ _ _ _ _);
    try reflexivity.
  apply list_elem_of_further, list_elem_of_here.
Defined.

Lemma transform_negative_n_components_witness :
  transform cat_dog_cat (embedder_minus, quiet)
  = (Raise ValueError, (embedder_minus, quiet)).
Proof.
  refine (transform_negative_n_components cat_dog_cat embedder_minus quiet
            _ _ _ _ _);
    try reflexivity; try discriminate.
  repeat constructor; by eexists.
Defined.

Lemma transform_without_model_witness :
  transform cat_dog_cat (embedder_unloaded, quiet)
  = (Raise AttributeError, (embedder_unloaded, quiet)).
Proof.
  refine (transform_without_model cat_dog_cat embedder_unloaded quiet
            _ _ _ _ _ _);
    try reflexivity; try discriminate.
  repeat constructor; by eexists.
Defined.

Lemma transform_dimension_mismatch_witness :
  ∃ x, x ∈ data cat_dog_cat ∧
       transform cat_dog_cat (embedder_500, quiet)
       = (Raise ValueError, (embedder_500, called [x] quiet)).
Proof.
  refine (transform_dimension_mismatch cat_dog_cat embedder_500 quiet
            500%nat _ _ _ _ _ _ _ _);
    try reflexivity; try discriminate.
  repeat constructor; eexists _, _; split; reflexivity.
Defined.

Lemma transform_returns_iff_witness :
  (∃ out st', transform cat_dog_cat (embedder3, quiet) = (Ok out, st')) ↔
  Forall (embeddable 3%nat) (data cat_dog_cat).
Proof.
  refine (transform_returns_iff cat_dog_cat embedder3 quiet 3%nat _ _ _ _ _);
    try reflexivity; discriminate.
Defined.

Lemma init_returns_iff_witness :
  ∃ st, __init__ 50 "en" "bins" None only_300 = (Ok tt, st).
Proof.
  apply (proj2 (proj1 (init_returns_iff 50 "en" "bins" None only_300))).
  right. split; [reflexivity|]. exists 300%nat. reflexivity.
Defined.

Lemma init_loads_requested_file_as_is_witness :
  __init__ 50 "en" "bins" None with_odd_50
  = (Ok tt, (mk_self 50 "en" "bins" "bins/cc.en.50.bin" (Some 7%nat),
             with_odd_50)).
Proof.
  refine (init_loads_requested_file_as_is 50 "en" "bins" None with_odd_50
            7%nat _).
  reflexivity.
Defined.


Lemma fit_after_init_witness :
  fit (mk_self 50 "en" "bins" "bins/cc.en.50.bin" (Some 50%nat), only_300)
  = (Ok (mk_self 50 "en" "bins" "bins/cc.en.50.bin" (Some 50%nat)),
     (mk_self 50 "en" "bins" "bins/cc.en.50.bin" (Some 50%nat), only_300)).
Proof.
  refine (fit_after_init 50 "en" "bins" None only_300 _ only_300 _).
  reflexivity.
Defined.

Lemma reduce_model_keeps_dimension_witness :
  ∃ self' m',
    reduce_model 2 (embedder3, quiet) = (Ok tt, (self', quiet)) ∧
    ft_model self' = Some m' ∧ n_components self' = 2 ∧
    Z.of_nat (get_dimension m') = n_components self'.
Proof.
  refine (reduce_model_keeps_dimension 2 embedder3 quiet 3%nat _ _ _);
    [reflexivity | reflexivity | split; reflexivity].
Defined.

Lemma reduce_model_never_grows_witness :
  n_components embedder2 ≤ n_components embedder3 ∧
  language embedder2 = language embedder3 ∧
  bin_dir embedder2 = bin_dir embedder3 ∧
  file_path embedder2 = file_path embedder3 ∧ quiet = quiet.
Proof.
  refine (reduce_model_never_grows 2 embedder3 quiet (Ok tt) embedder2 quiet
            _).
  reflexivity.
Defined.

Lemma reduce_model_twice_witness :
  reduce_model 2 (embedder2, quiet)
  = (Raise (AssertionError
              "Cannot expand embedding            size from 2 to 2."),
     (embedder2, quiet)).
Proof.
  refine (proj2 (reduce_model_twice 2 2 embedder3 quiet 3%nat
                   (embedder2, quiet) _ _) _);
    [reflexivity | reflexivity | discriminate].
Defined.

Lemma load_model_idempotent_witness :
  load_model (mk_self 50 "en" "bins" "bins/cc.en.50.bin" (Some 50%nat),
              only_300)
  = (Ok tt, (mk_self 50 "en" "bins" "bins/cc.en.50.bin" (Some 50%nat),
             only_300)).
Proof.
  refine (load_model_idempotent
            (init_attributes 50 "en" "bins" None, only_300) _ _).
  reflexivity.
Defined.


Lemma save_model_failure_leaves_cwd_witness :
  os_getcwd
    (mk_process (disk disk_full) "/home/ada/./fastText_bins"
       (chdir_errno disk_full) (writable disk_full))
  = "/home/ada/fastText_bins" ∧
  save_model None embedder2_default disk_full
  = (Failed (Error ValueError),
     mk_process (disk disk_full) "/home/ada/./fastText_bins"
       (chdir_errno disk_full) (writable disk_full)).
Proof.
  split; [reflexivity|].
  refine (proj2 (proj2 (proj2 (save_model_failure_leaves_cwd None
                                 embedder2_default disk_full))) _ _ _ _);
    try reflexivity; [discriminate | by eexists].
Defined.

Lemma save_model_touches_one_file_witness :
  disk saved_in_project !! "/home/ada/notes.txt"
  = disk in_project !! "/home/ada/notes.txt".
Proof.
  refine (proj1 (save_model_touches_one_file None embedder2_default
                   in_project (Returned tt) saved_in_project _)
            "/home/ada/notes.txt" _);
    [reflexivity | discriminate].
Defined.

Lemma save_then_init_round_trip_witness :
  __init__ 2 "en" "/srv/bins" None
    (mk_world (<[ "/srv/bins/cc.en.2.bin" := ModelFile 2%nat ]> ∅) [])
  = (Ok tt,
     (mk_self 2 "en" "/srv/bins" "/srv/bins/cc.en.2.bin" (Some 2%nat),
      mk_world (<[ "/srv/bins/cc.en.2.bin" := ModelFile 2%nat ]> ∅) [])).
Proof.
  refine (save_then_init_round_trip embedder2_srv at_home
            (mk_process (<[ "/srv/bins/cc.en.2.bin" := ModelFile 2%nat ]> ∅)
               "/home/ada" (chdir_errno at_home) (writable at_home))
            2%nat [] _ _ _ _);
    try reflexivity. discriminate.
Defined.

End MoreRuns.
